(** * Horovod MPI collective operations (horovod/common/ops/mpi_operations.cc)

    A shallow embedding of [MPIContext] and of the MPI operation dispatchers.
    Calls into the MPI library and into the timeline are external: a program
    is a tree of such calls, each continued on the value the outside world
    answers with.  The fields of [MPIContext] are threaded as state, and a
    C++ exception is an explicit result. *)

From Stdlib Require Import ZArith List String Bool Lia.
Import ListNotations.
Open Scope string_scope.
Open Scope list_scope.
Open Scope Z_scope.

(** ** Data model *)

(** A [void*] is its address; [nullptr] is address zero. *)
Definition ptr := Z.
Definition nullptr : ptr := 0.

(** The conversion [(int) num_elements] of an [int64_t]: the low 32 bits,
    read as a signed two's complement number. *)
Definition int_cast (n : Z) : Z := (n + 2 ^ 31) mod 2 ^ 32 - 2 ^ 31.

(** Modelled from the spec: the declaration of [enum DataType] (common.h) is
    not part of the sources at hand.  The enumerators are the ones named by
    the [switch] of [GetMPIDataType]; [DataType_unlisted raw] stands for any
    other value of the enumeration type, be it an enumerator the [switch] does
    not name or a value out of range (what reaches the [default] label),
    [raw] being its underlying integer. *)
Inductive DataType : Type :=
| HOROVOD_UINT8
| HOROVOD_INT8
| HOROVOD_UINT16
| HOROVOD_INT16
| HOROVOD_INT32
| HOROVOD_INT64
| HOROVOD_FLOAT16
| HOROVOD_FLOAT32
| HOROVOD_FLOAT64
| HOROVOD_BOOL
| HOROVOD_BYTE
| HOROVOD_NULL
| DataType_unlisted (raw : Z).

Definition DataType_eq_dec (a b : DataType) : {a = b} + {a <> b}.
Proof. decide equality; apply Z.eq_dec. Defined.

(** [a == b] on datatypes. *)
Definition DataType_eqb (a b : DataType) : bool :=
  if DataType_eq_dec a b then true else false.

(** The datatypes that are wired to a handle of their own. *)
Definition supported (dtype : DataType) : bool :=
  match dtype with
  | HOROVOD_NULL | DataType_unlisted _ => false
  | _ => true
  end.

(** The enumerators the [switch] of [GetMPIDataType] names. *)
Definition listed (dtype : DataType) : bool :=
  match dtype with
  | DataType_unlisted _ => false
  | _ => true
  end.

(** Modelled from the spec: the declaration of
    [CommunicationContext::Communicator] (communication_context.h) is not
    part of the sources at hand.  The scopes are the ones named by the
    [switch] of [GetMPICommunicator]; [Communicator_unlisted raw] is any other
    value of the enumeration type. *)
Inductive Communicator : Type :=
| GLOBAL
| LOCAL
| CROSS
| Communicator_unlisted (raw : Z).

Definition recognized (comm : Communicator) : bool :=
  match comm with
  | Communicator_unlisted _ => false
  | _ => true
  end.

(** Modelled from the spec: the class [Tensor] (common.h) is not part of the
    sources at hand.  A tensor is what this file reads of it, the datatype
    tag [dtype()] and the opaque buffer pointer [data()]. *)
Record Tensor : Type := { dtype : DataType; data : ptr }.

(** Modelled from the spec: the struct [TensorTableEntry] (common.h) is not
    part of the sources at hand.  An entry is what this file reads of it, the
    input tensor and the output tensor. *)
Record TensorTableEntry : Type := { tensor : Tensor; output : Tensor }.

(** ** The MPI library, as seen by the callers *)

(** Datatype handles: the predefined ones this file names, and handles
    created at run time ([MPI_Type_contiguous] and the like). *)
Inductive MPI_Datatype : Type :=
| MPI_UINT8_T
| MPI_INT8_T
| MPI_UINT16_T
| MPI_INT16_T
| MPI_INT32_T
| MPI_INT64_T
| MPI_FLOAT
| MPI_DOUBLE
| MPI_C_BOOL
| MPI_BYTE
| MPI_DATATYPE_NULL
| MPI_Datatype_created (handle : Z).

(** Reduction operators: the predefined sum, and operators created at run
    time ([MPI_Op_create]). *)
Inductive MPI_Op : Type :=
| MPI_SUM
| MPI_Op_created (handle : Z).

Inductive MPI_Comm : Type := MPI_Comm_handle (handle : Z).
Inductive MPI_Win : Type := MPI_Win_handle (handle : Z).
Inductive MPI_Info : Type := MPI_INFO_NULL.

(** A buffer argument of a collective: an address, or the marker
    [MPI_IN_PLACE]. *)
Inductive MPI_Buf : Type :=
| MPI_IN_PLACE
| MPI_Buffer (p : ptr).

(** The MPI standard fixes [MPI_SUCCESS] to zero. *)
Definition MPI_SUCCESS : Z := 0.

(** Modelled from the spec: the activity names handed to the timeline are
    macros of common.h, not part of the sources at hand; they are kept as
    names. *)
Inductive Activity : Type :=
| MPI_ALLREDUCE
| MPI_ALLGATHER
| MPI_CROSS_ALLGATHER
| MPI_BCAST.

(** Calls that leave this file: the MPI library and the timeline. *)
Inductive Call : Type :=
| MPI_Allreduce (sendbuf : MPI_Buf) (recvbuf : ptr) (count : Z)
    (datatype : MPI_Datatype) (op : MPI_Op) (comm : MPI_Comm)
| MPI_Allgatherv (sendbuf : MPI_Buf) (sendcount : Z) (sendtype : MPI_Datatype)
    (recvbuf : ptr) (recvcounts displs : list Z) (recvtype : MPI_Datatype)
    (comm : MPI_Comm)
| MPI_Bcast (buffer : ptr) (count : Z) (datatype : MPI_Datatype) (root : Z)
    (comm : MPI_Comm)
| MPI_Barrier (comm : MPI_Comm)
| MPI_Win_allocate_shared (size disp_unit : Z) (info : MPI_Info)
    (comm : MPI_Comm) (baseptr : ptr)
| MPI_Win_fence (assert : Z) (win : MPI_Win)
| MPI_Win_free (win : MPI_Win)
| MPI_Win_shared_query (win : MPI_Win) (rank : Z) (baseptr : ptr)
| MPI_Type_size (datatype : MPI_Datatype) (size : ptr)
| Timeline_ActivityStartAll (entries : list TensorTableEntry)
    (activity : Activity)
| Timeline_ActivityEndAll (entries : list TensorTableEntry).

(** What a call answers: MPI functions return an [int] status;
    [MPI_Win_allocate_shared] and [MPI_Win_free] also write the window handle
    through [&window]; the timeline returns nothing.  Memory of the caller
    written through [baseptr] and [size] is outside this model. *)
Definition Resp (c : Call) : Type :=
  match c with
  | MPI_Win_allocate_shared _ _ _ _ _ => (Z * MPI_Win)%type
  | MPI_Win_free _ => (Z * MPI_Win)%type
  | Timeline_ActivityStartAll _ _ => unit
  | Timeline_ActivityEndAll _ => unit
  | _ => Z
  end.

(** ** Programs over external calls *)

Inductive Prog (A : Type) : Type :=
| Ret (a : A)
| Vis (c : Call) (k : Resp c -> Prog A).
Arguments Ret {A} a.
Arguments Vis {A} c k.

Fixpoint pbind {A B : Type} (p : Prog A) (f : A -> Prog B) : Prog B :=
  match p with
  | Ret a => f a
  | Vis c k => Vis c (fun r => pbind (k r) f)
  end.

(** [std::logic_error] with its [what()] string. *)
Inductive exn : Type := logic_error (what : string).

Inductive Result (A : Type) : Type :=
| Ok (a : A)
| Throws (e : exn)
| Undefined.
Arguments Ok {A} a.
Arguments Throws {A} e.
Arguments Undefined {A}.

(** A member function of an object with fields [S]: it reads and writes the
    fields, makes external calls, and returns, throws, or (indexing a vector
    out of range) has no defined behaviour. *)
Definition M (S A : Type) : Type := S -> Prog (Result A * S).

Definition ret {S A : Type} (a : A) : M S A := fun s => Ret (Ok a, s).

Definition throw {S A : Type} (e : exn) : M S A := fun s => Ret (Throws e, s).

Definition undefined {S A : Type} : M S A := fun s => Ret (Undefined, s).

Definition bind {S A B : Type} (m : M S A) (f : A -> M S B) : M S B :=
  fun s =>
    pbind (m s) (fun rs =>
      match fst rs with
      | Ok a => f a (snd rs)
      | Throws e => Ret (Throws e, snd rs)
      | Undefined => Ret (Undefined, snd rs)
      end).

Definition get {S : Type} : M S S := fun s => Ret (Ok s, s).

Definition put {S : Type} (s : S) : M S unit := fun _ => Ret (Ok tt, s).

Definition lift {S A : Type} (r : Result A) : M S A := fun s => Ret (r, s).

Definition external {S : Type} (c : Call) : M S (Resp c) :=
  fun s => Vis c (fun r => Ret (Ok r, s)).

Declare Scope m_scope.
Delimit Scope m_scope with M.
Notation "x <- m ;; k" := (bind m (fun x => k))
  (at level 61, m at next level, right associativity) : m_scope.
Notation "m ;; k" := (bind m (fun _ => k))
  (at level 61, right associativity) : m_scope.
Open Scope m_scope.

(** ** Running a program against the outside world *)

(** The outside world answers every call, possibly depending on the calls
    made so far (so a call may fail once and succeed when repeated). *)
Definition World : Type := list Call -> forall c : Call, Resp c.

(** [run w p hist] runs [p] after the calls [hist]; it returns the value of
    [p] and the calls made, oldest first. *)
Fixpoint run {A : Type} (w : World) (p : Prog A) (hist : list Call)
  : A * list Call :=
  match p with
  | Ret a => (a, hist)
  | Vis c k => run w (k (w hist c)) (hist ++ [c])
  end.

(** A member function called on the object [s] in a fresh process. *)
Definition exec {S A : Type} (w : World) (m : M S A) (s : S)
  : Result A * S * list Call :=
  run w (m s) [].

Definition result_of {S A : Type} (o : Result A * S * list Call) : Result A :=
  fst (fst o).
Definition object_of {S A : Type} (o : Result A * S * list Call) : S :=
  snd (fst o).
Definition calls_of {S A : Type} (o : Result A * S * list Call) : list Call :=
  snd o.

(** ** MPIContext *)

(** The fields of [MPIContext] this file reads or writes.  The message queue
    and the message table are not touched by any function here. *)
Record MPIContext : Type := {
  mpi_float16_t : MPI_Datatype;
  mpi_float16_sum : MPI_Op;
  mpi_comm : MPI_Comm;
  local_comm : MPI_Comm;
  cross_comm : MPI_Comm;
  window : MPI_Win
}.

(** The assignment to [window] made by the MPI library through [&window]. *)
Definition set_window (this : MPIContext) (win : MPI_Win) : MPIContext :=
  {| mpi_float16_t := mpi_float16_t this;
     mpi_float16_sum := mpi_float16_sum this;
     mpi_comm := mpi_comm this;
     local_comm := local_comm this;
     cross_comm := cross_comm this;
     window := win |}.

Section MPIOperations.

(** [DataType_Name] and [CommunicatorName] are defined outside this file. *)
Variable DataType_Name : DataType -> string.
Variable CommunicatorName : Communicator -> string.

(** [MPIContext::GetMPIDataType(DataType)]. *)
Definition GetMPIDataType (this : MPIContext) (dtype : DataType)
  : Result MPI_Datatype :=
  match dtype with
  | HOROVOD_UINT8 => Ok MPI_UINT8_T
  | HOROVOD_INT8 => Ok MPI_INT8_T
  | HOROVOD_UINT16 => Ok MPI_UINT16_T
  | HOROVOD_INT16 => Ok MPI_INT16_T
  | HOROVOD_INT32 => Ok MPI_INT32_T
  | HOROVOD_INT64 => Ok MPI_INT64_T
  | HOROVOD_FLOAT16 => Ok (mpi_float16_t this)
  | HOROVOD_FLOAT32 => Ok MPI_FLOAT
  | HOROVOD_FLOAT64 => Ok MPI_DOUBLE
  | HOROVOD_BOOL => Ok MPI_C_BOOL
  | HOROVOD_BYTE => Ok MPI_BYTE
  | HOROVOD_NULL => Ok MPI_DATATYPE_NULL
  | DataType_unlisted _ =>
      Throws (logic_error ("Type " ++ DataType_Name dtype ++
                           " is not supported in MPI mode.")%string)
  end.

(** [MPIContext::GetMPIDataType(std::shared_ptr<Tensor>)]. *)
Definition GetMPIDataType_tensor (this : MPIContext) (t : Tensor)
  : Result MPI_Datatype :=
  GetMPIDataType this (dtype t).

(** [MPIContext::GetMPICommunicator]. *)
Definition GetMPICommunicator (this : MPIContext) (comm : Communicator)
  : Result MPI_Comm :=
  match comm with
  | GLOBAL => Ok (mpi_comm this)
  | LOCAL => Ok (local_comm this)
  | CROSS => Ok (cross_comm this)
  | Communicator_unlisted _ =>
      Throws (logic_error ("Communicator " ++ CommunicatorName comm ++
                           " is not supported in MPI mode.")%string)
  end.

(** [MPIContext::Allreduce].  The arguments of [MPI_Allreduce] that may throw
    are evaluated left to right here; C++ leaves their order open, and both
    are free of external calls. *)
Definition MPIContext_Allreduce (buffer_data : ptr) (num_elements : Z)
    (first_entry : TensorTableEntry) (sendbuff : ptr) (comm : Communicator)
  : M MPIContext unit :=
  this <- get ;;
  datatype <- lift (GetMPIDataType_tensor this (tensor first_entry)) ;;
  c <- lift (GetMPICommunicator this comm) ;;
  op <- external
          (MPI_Allreduce
             (if negb (sendbuff =? nullptr) then MPI_Buffer sendbuff
              else MPI_IN_PLACE)
             buffer_data
             (int_cast num_elements)
             datatype
             (if DataType_eqb (dtype (tensor first_entry)) HOROVOD_FLOAT16
              then mpi_float16_sum this else MPI_SUM)
             c) ;;
  if negb (op =? MPI_SUCCESS)
  then throw (logic_error "MPI_Allreduce failed, see MPI output for details.")
  else ret tt.

(** [MPIContext::Allgatherv]. *)
Definition MPIContext_Allgatherv (sendbuf : ptr) (sendcount : Z)
    (sendtype : DataType) (recvbuf : ptr) (recvcounts displs : list Z)
    (recvtype : DataType) (comm : Communicator) : M MPIContext unit :=
  this <- get ;;
  st <- lift (GetMPIDataType this sendtype) ;;
  rt <- lift (GetMPIDataType this recvtype) ;;
  c <- lift (GetMPICommunicator this comm) ;;
  op <- external
          (MPI_Allgatherv
             (if negb (sendbuf =? nullptr) then MPI_Buffer sendbuf
              else MPI_IN_PLACE)
             sendcount st recvbuf recvcounts displs rt c) ;;
  if negb (op =? MPI_SUCCESS)
  then throw (logic_error "MPI_Allgatherv failed, see MPI output for details.")
  else ret tt.

(** [MPIContext::Broadcast]. *)
Definition MPIContext_Broadcast (buffer_data : ptr) (num_elements : Z)
    (dt : DataType) (root_rank : Z) (comm : Communicator)
  : M MPIContext unit :=
  this <- get ;;
  datatype <- lift (GetMPIDataType this dt) ;;
  c <- lift (GetMPICommunicator this comm) ;;
  op <- external
          (MPI_Bcast buffer_data (int_cast num_elements) datatype root_rank c) ;;
  if negb (op =? MPI_SUCCESS)
  then throw (logic_error "MPI_Broadcast failed, see MPI output for details.")
  else ret tt.

(** [MPIContext::Barrier]. *)
Definition MPIContext_Barrier (comm : Communicator) : M MPIContext unit :=
  this <- get ;;
  c <- lift (GetMPICommunicator this comm) ;;
  op <- external (MPI_Barrier c) ;;
  if negb (op =? MPI_SUCCESS)
  then throw (logic_error "MPI_Barrier failed, see MPI output for details.")
  else ret tt.

(** [MPIContext::AllocateSharedBuffer]: the status is dropped. *)
Definition MPIContext_AllocateSharedBuffer (window_size element_size : Z)
    (baseptr : ptr) (comm : Communicator) : M MPIContext unit :=
  this <- get ;;
  c <- lift (GetMPICommunicator this comm) ;;
  r <- external
         (MPI_Win_allocate_shared window_size element_size MPI_INFO_NULL c
            baseptr) ;;
  put (set_window this (snd r)).

(** [MPIContext::FreeSharedBuffer]: both statuses are dropped. *)
Definition MPIContext_FreeSharedBuffer : M MPIContext unit :=
  this <- get ;;
  _ <- external (MPI_Win_fence 0 (window this)) ;;
  r <- external (MPI_Win_free (window this)) ;;
  put (set_window this (snd r)).

(** [MPIContext::QuerySharedBuffer]: the status is dropped. *)
Definition MPIContext_QuerySharedBuffer (rank : Z) (baseptr : ptr)
  : M MPIContext unit :=
  this <- get ;;
  _ <- external (MPI_Win_shared_query (window this) rank baseptr) ;;
  ret tt.

(** [MPIContext::GetTypeSize]: the status is dropped. *)
Definition MPIContext_GetTypeSize (dt : DataType) (out : ptr)
  : M MPIContext unit :=
  this <- get ;;
  datatype <- lift (GetMPIDataType this dt) ;;
  _ <- external (MPI_Type_size datatype out) ;;
  ret tt.

(** ** The CommunicationContext interface *)

(** Modelled from the spec: the class [CommunicationContext]
    (communication_context.h) is not part of the sources at hand.  Its
    virtual member functions are the ones [MPIContext] declares with
    [override]. *)
Class CommunicationContext (C : Type) : Type := {
  Allreduce : ptr -> Z -> TensorTableEntry -> ptr -> Communicator -> M C unit;
  Allgatherv : ptr -> Z -> DataType -> ptr -> list Z -> list Z -> DataType ->
               Communicator -> M C unit;
  Broadcast : ptr -> Z -> DataType -> Z -> Communicator -> M C unit;
  Barrier : Communicator -> M C unit;
  AllocateSharedBuffer : Z -> Z -> ptr -> Communicator -> M C unit;
  FreeSharedBuffer : M C unit;
  QuerySharedBuffer : Z -> ptr -> M C unit;
  GetTypeSize : DataType -> ptr -> M C unit
}.

#[local] Instance MPIContext_CommunicationContext
  : CommunicationContext MPIContext := {|
  Allreduce := MPIContext_Allreduce;
  Allgatherv := MPIContext_Allgatherv;
  Broadcast := MPIContext_Broadcast;
  Barrier := MPIContext_Barrier;
  AllocateSharedBuffer := MPIContext_AllocateSharedBuffer;
  FreeSharedBuffer := MPIContext_FreeSharedBuffer;
  QuerySharedBuffer := MPIContext_QuerySharedBuffer;
  GetTypeSize := MPIContext_GetTypeSize
|}.

(** ** Dispatchers *)

(** Modelled from the spec: the struct [HorovodGlobalState] (global_state.h)
    is not part of the sources at hand.  These are the fields read here;
    the timeline it also holds is reached through external calls. *)
Record HorovodGlobalState : Type := {
  is_homogeneous : bool;
  local_rank : Z
}.

(** [ParameterManager] and [MPIResponse] are defined outside this file; of
    the former only [HierarchicalAllgather()] is called. *)
Variable ParameterManager : Type.
Variable HierarchicalAllgather : ParameterManager -> bool.
Variable MPIResponse : Type.

(** [DoMPIAllreduce].  [entries[0]] on an empty vector has no defined
    behaviour. *)
Definition DoMPIAllreduce (entries : list TensorTableEntry)
    (buffer_data : ptr) (num_elements : Z) (buffer_len : Z)
  : M MPIContext unit :=
  match entries with
  | [] => undefined
  | first_entry :: _ =>
      let sendbuf :=
        if (1 <? Z.of_nat (List.length entries))
           || (data (tensor first_entry) =? data (output first_entry))
        then nullptr else data (tensor first_entry) in
      MPIContext_Allreduce buffer_data num_elements first_entry sendbuf GLOBAL
  end.

(** [MPIAllreduce::Enabled]. *)
Definition MPIAllreduce_Enabled (param_manager : ParameterManager)
    (entries : list TensorTableEntry) (response : MPIResponse) : bool :=
  true.

(** [MPIAllgather::Enabled]. *)
Definition MPIAllgather_Enabled (param_manager : ParameterManager)
    (entries : list TensorTableEntry) (response : MPIResponse) : bool :=
  true.

(** [MPIAllgather::DoAllgatherv], on [mpi_context_]. *)
Definition MPIAllgather_DoAllgatherv (entries : list TensorTableEntry)
    (sendbuf : ptr) (sendcount : Z) (sendtype : DataType) (recvbuf : ptr)
    (recvcounts displs : list Z) (recvtype : DataType) : M MPIContext unit :=
  external (Timeline_ActivityStartAll entries MPI_ALLGATHER) ;;
  MPIContext_Allgatherv sendbuf sendcount sendtype recvbuf recvcounts displs
    recvtype GLOBAL ;;
  external (Timeline_ActivityEndAll entries).

(** [MPIHierarchicalAllgather::Enabled]. *)
Definition MPIHierarchicalAllgather_Enabled (param_manager : ParameterManager)
    (entries : list TensorTableEntry) (response : MPIResponse) : bool :=
  HierarchicalAllgather param_manager.

(** [MPIHierarchicalAllgather::DoAllgatherv], on [comm_context_]. *)
Definition MPIHierarchicalAllgather_DoAllgatherv {C : Type}
    {comm_context_ : CommunicationContext C}
    (global_state_ : HorovodGlobalState) (entries : list TensorTableEntry)
    (sendbuf : ptr) (sendcount : Z) (sendtype : DataType) (recvbuf : ptr)
    (recvcounts displs : list Z) (recvtype : DataType) : M C unit :=
  external (Timeline_ActivityStartAll entries MPI_CROSS_ALLGATHER) ;;
  (if is_homogeneous global_state_ || (local_rank global_state_ =? 0)
   then Allgatherv sendbuf sendcount sendtype recvbuf recvcounts displs
          recvtype CROSS
   else ret tt) ;;
  Barrier GLOBAL ;;
  external (Timeline_ActivityEndAll entries).

(** [MPIBroadcast::Enabled]. *)
Definition MPIBroadcast_Enabled (param_manager : ParameterManager)
    (entries : list TensorTableEntry) (response : MPIResponse) : bool :=
  true.

(** [MPIBroadcast::DoBroadcast], on [comm_context_]. *)
Definition MPIBroadcast_DoBroadcast {C : Type}
    {comm_context_ : CommunicationContext C}
    (entries : list TensorTableEntry) (buffer_data : ptr) (num_elements : Z)
    (dt : DataType) (root_rank : Z) : M C unit :=
  external (Timeline_ActivityStartAll entries MPI_BCAST) ;;
  Broadcast buffer_data num_elements dt root_rank GLOBAL ;;
  external (Timeline_ActivityEndAll entries).

(** [MPIHierarchicalAllgather::DoAllgatherv] where [comm_context_] points to
    the process's [MPIContext], the one implementation of the interface in
    this file. *)
Definition MPIHierarchicalAllgather_DoAllgatherv_MPI
    (global_state_ : HorovodGlobalState) (entries : list TensorTableEntry)
    (sendbuf : ptr) (sendcount : Z) (sendtype : DataType) (recvbuf : ptr)
    (recvcounts displs : list Z) (recvtype : DataType) : M MPIContext unit :=
  MPIHierarchicalAllgather_DoAllgatherv (C := MPIContext) global_state_
    entries sendbuf sendcount sendtype recvbuf recvcounts displs recvtype.

(** [MPIBroadcast::DoBroadcast] where [comm_context_] points to the process's
    [MPIContext]. *)
Definition MPIBroadcast_DoBroadcast_MPI (entries : list TensorTableEntry)
    (buffer_data : ptr) (num_elements : Z) (dt : DataType) (root_rank : Z)
  : M MPIContext unit :=
  MPIBroadcast_DoBroadcast (C := MPIContext) entries buffer_data num_elements
    dt root_rank.

(** ** The calls made on a context *)

(** A call of one of the virtual member functions of the interface. *)
Inductive InterfaceCall : Type :=
| call_Allreduce (buffer_data : ptr) (num_elements : Z)
    (first_entry : TensorTableEntry) (sendbuff : ptr) (comm : Communicator)
| call_Allgatherv (sendbuf : ptr) (sendcount : Z) (sendtype : DataType)
    (recvbuf : ptr) (recvcounts displs : list Z) (recvtype : DataType)
    (comm : Communicator)
| call_Broadcast (buffer_data : ptr) (num_elements : Z) (dt : DataType)
    (root_rank : Z) (comm : Communicator)
| call_Barrier (comm : Communicator)
| call_AllocateSharedBuffer (window_size element_size : Z) (baseptr : ptr)
    (comm : Communicator)
| call_FreeSharedBuffer
| call_QuerySharedBuffer (rank : Z) (baseptr : ptr)
| call_GetTypeSize (dt : DataType) (out : ptr).

(** Virtual dispatch: the call [ic] on a context of any implementation. *)
Definition dispatch {C : Type} {comm_context_ : CommunicationContext C}
    (ic : InterfaceCall) : M C unit :=
  match ic with
  | call_Allreduce b n e s c => Allreduce b n e s c
  | call_Allgatherv sb sc st rb rc ds rt c =>
      Allgatherv sb sc st rb rc ds rt c
  | call_Broadcast b n dt r c => Broadcast b n dt r c
  | call_Barrier c => Barrier c
  | call_AllocateSharedBuffer ws es bp c => AllocateSharedBuffer ws es bp c
  | call_FreeSharedBuffer => FreeSharedBuffer
  | call_QuerySharedBuffer r bp => QuerySharedBuffer r bp
  | call_GetTypeSize dt out => GetTypeSize dt out
  end.

(** What a context does to its caller: after the calls [log] were made on it,
    the call returns ([None]) or throws. *)
Definition Behaviour : Type :=
  list InterfaceCall -> InterfaceCall -> option exn.

(** A context that does nothing but record the calls made on it, oldest
    first, and return or throw as [behaviour] says.  A dispatcher run on it
    shows the calls the dispatcher makes on [comm_context_], whatever the
    implementation behind the interface. *)
Definition record (behaviour : Behaviour) (ic : InterfaceCall)
  : M (list InterfaceCall) unit :=
  fun log =>
    Ret (match behaviour log ic with
         | None => Ok tt
         | Some e => Throws e
         end, log ++ [ic]).

Definition Recorder (behaviour : Behaviour)
  : CommunicationContext (list InterfaceCall) := {|
  Allreduce := fun b n e s c => record behaviour (call_Allreduce b n e s c);
  Allgatherv := fun sb sc st rb rc ds rt c =>
    record behaviour (call_Allgatherv sb sc st rb rc ds rt c);
  Broadcast := fun b n dt r c => record behaviour (call_Broadcast b n dt r c);
  Barrier := fun c => record behaviour (call_Barrier c);
  AllocateSharedBuffer := fun ws es bp c =>
    record behaviour (call_AllocateSharedBuffer ws es bp c);
  FreeSharedBuffer := record behaviour call_FreeSharedBuffer;
  QuerySharedBuffer := fun r bp =>
    record behaviour (call_QuerySharedBuffer r bp);
  GetTypeSize := fun dt out => record behaviour (call_GetTypeSize dt out)
|}.

(** [MPIHierarchicalAllgather::DoAllgatherv] on a recording context. *)
Definition MPIHierarchicalAllgather_DoAllgatherv_recorded
    (behaviour : Behaviour)
    (global_state_ : HorovodGlobalState) (entries : list TensorTableEntry)
    (sendbuf : ptr) (sendcount : Z) (sendtype : DataType) (recvbuf : ptr)
    (recvcounts displs : list Z) (recvtype : DataType)
  : M (list InterfaceCall) unit :=
  MPIHierarchicalAllgather_DoAllgatherv (comm_context_ := Recorder behaviour)
    global_state_ entries sendbuf sendcount sendtype recvbuf recvcounts displs
    recvtype.

(** ** A process lifetime *)

(** The operations of this file that run on the [MPIContext] of a process:
    its member functions and the dispatchers that hold a pointer to it. *)
Inductive MemberCall : Type :=
| call_member (ic : InterfaceCall)
| call_DoMPIAllreduce (entries : list TensorTableEntry) (buffer_data : ptr)
    (num_elements buffer_len : Z)
| call_MPIAllgather (entries : list TensorTableEntry)
    (sendbuf : ptr) (sendcount : Z) (sendtype : DataType) (recvbuf : ptr)
    (recvcounts displs : list Z) (recvtype : DataType)
| call_MPIHierarchicalAllgather (global_state_ : HorovodGlobalState)
    (entries : list TensorTableEntry)
    (sendbuf : ptr) (sendcount : Z) (sendtype : DataType) (recvbuf : ptr)
    (recvcounts displs : list Z) (recvtype : DataType)
| call_MPIBroadcast (entries : list TensorTableEntry) (buffer_data : ptr)
    (num_elements : Z) (dt : DataType) (root_rank : Z).

Definition invoke (mc : MemberCall) : M MPIContext unit :=
  match mc with
  | call_member ic => dispatch (C := MPIContext) ic
  | call_DoMPIAllreduce es b n l => DoMPIAllreduce es b n l
  | call_MPIAllgather es sb sc st rb rc ds rt =>
      MPIAllgather_DoAllgatherv es sb sc st rb rc ds rt
  | call_MPIHierarchicalAllgather gs es sb sc st rb rc ds rt =>
      MPIHierarchicalAllgather_DoAllgatherv_MPI gs es sb sc st rb rc ds rt
  | call_MPIBroadcast es b n dt r => MPIBroadcast_DoBroadcast_MPI es b n dt r
  end.

(** The operations of one process, one after the other.  A thrown exception
    may be caught by the caller, so the process goes on after it; it stops
    where behaviour is undefined. *)
Fixpoint lifetime (calls : list MemberCall) : M MPIContext unit :=
  match calls with
  | [] => ret tt
  | mc :: rest =>
      fun s =>
        pbind (invoke mc s) (fun rs =>
          match fst rs with
          | Undefined => Ret (Undefined, snd rs)
          | _ => lifetime rest (snd rs)
          end)
  end.

(** ** Vocabulary of the properties *)

(** The error's message contains [name]. *)
Definition carries (e : exn) (name : string) : Prop :=
  exists pre post : string,
    match e with logic_error what => what = (pre ++ name ++ post)%string end.

Definition is_Allgatherv (c : Call) : bool :=
  match c with MPI_Allgatherv _ _ _ _ _ _ _ _ => true | _ => false end.

Definition is_Barrier (c : Call) : bool :=
  match c with MPI_Barrier _ => true | _ => false end.

(** How many of the calls made satisfy [f]. *)
Definition count (f : Call -> bool) (calls : list Call) : nat :=
  List.length (filter f calls).

(** Two contexts agree on everything but [window]. *)
Definition same_handles (a b : MPIContext) : Prop :=
  mpi_float16_t a = mpi_float16_t b /\
  mpi_float16_sum a = mpi_float16_sum b /\
  mpi_comm a = mpi_comm b /\
  local_comm a = local_comm b /\
  cross_comm a = cross_comm b.

(** The one call [MPIContext::Allreduce] makes once both handles resolve. *)
Definition Allreduce_call (this : MPIContext) (buffer_data : ptr)
    (num_elements : Z) (first_entry : TensorTableEntry) (sendbuff : ptr)
    (datatype : MPI_Datatype) (c : MPI_Comm) : Call :=
  MPI_Allreduce
    (if negb (sendbuff =? nullptr) then MPI_Buffer sendbuff else MPI_IN_PLACE)
    buffer_data (int_cast num_elements) datatype
    (if DataType_eqb (dtype (tensor first_entry)) HOROVOD_FLOAT16
     then mpi_float16_sum this else MPI_SUM)
    c.

(** The activity start every hierarchical allgather opens with. *)
Definition cross_start (entries : list TensorTableEntry) : Call :=
  Timeline_ActivityStartAll entries MPI_CROSS_ALLGATHER.

(** The cross-node stage as [DoAllgatherv] runs it: [Allgatherv] on the CROSS
    scope, right after the activity start. *)
Definition cross_stage (w : World) (this : MPIContext)
    (entries : list TensorTableEntry)
    (sendbuf : ptr) (sendcount : Z) (sendtype : DataType) (recvbuf : ptr)
    (recvcounts displs : list Z) (recvtype : DataType)
  : Result unit * MPIContext * list Call :=
  run w (MPIContext_Allgatherv sendbuf sendcount sendtype recvbuf recvcounts
           displs recvtype CROSS this) [cross_start entries].

(** The one call [MPIContext::Allgatherv] makes once its handles resolve. *)
Definition Allgatherv_call (sendbuf : ptr) (sendcount : Z)
    (st : MPI_Datatype) (recvbuf : ptr) (recvcounts displs : list Z)
    (rt : MPI_Datatype) (c : MPI_Comm) : Call :=
  MPI_Allgatherv
    (if negb (sendbuf =? nullptr) then MPI_Buffer sendbuf else MPI_IN_PLACE)
    sendcount st recvbuf recvcounts displs rt c.

(** The datatypes and the scope an interface call names are all ones the
    context resolves. *)
Definition resolvable (ic : InterfaceCall) : bool :=
  match ic with
  | call_Allreduce _ _ e _ c => listed (dtype (tensor e)) && recognized c
  | call_Allgatherv _ _ st _ _ _ rt c =>
      listed st && listed rt && recognized c
  | call_Broadcast _ _ dt _ c => listed dt && recognized c
  | call_Barrier c => recognized c
  | call_AllocateSharedBuffer _ _ _ c => recognized c
  | call_FreeSharedBuffer => true
  | call_QuerySharedBuffer _ _ => true
  | call_GetTypeSize dt _ => listed dt
  end.

(** The two member functions that hand [&window] to the MPI library. *)
Definition writes_window (mc : MemberCall) : bool :=
  match mc with
  | call_member (call_AllocateSharedBuffer _ _ _ _) => true
  | call_member call_FreeSharedBuffer => true
  | _ => false
  end.

(** The dispatchers that record their activity on the timeline, with the
    activity and the entries they record. *)
Definition timeline_activity (mc : MemberCall)
  : option (Activity * list TensorTableEntry) :=
  match mc with
  | call_MPIAllgather es _ _ _ _ _ _ _ => Some (MPI_ALLGATHER, es)
  | call_MPIHierarchicalAllgather _ es _ _ _ _ _ _ _ =>
      Some (MPI_CROSS_ALLGATHER, es)
  | call_MPIBroadcast es _ _ _ _ => Some (MPI_BCAST, es)
  | _ => None
  end.

Definition is_ActivityEnd (c : Call) : bool :=
  match c with Timeline_ActivityEndAll _ => true | _ => false end.

Definition is_MPI (c : Call) : bool :=
  match c with
  | Timeline_ActivityStartAll _ _ | Timeline_ActivityEndAll _ => false
  | _ => true
  end.



(** Every release of a window in [calls] comes right after a fence of that
    same window; [prev] is the call made just before [calls]. *)
Fixpoint frees_fenced (prev : option Call) (calls : list Call) : Prop :=
  match calls with
  | [] => True
  | c :: rest =>
      (forall win, c = MPI_Win_free win -> prev = Some (MPI_Win_fence 0 win))
      /\ frees_fenced (Some c) rest
  end.

(** The life of a shared window as a caller drives it: allocate, ask for a
    peer's base address, free. *)
Definition shared_buffer_lifecycle (window_size element_size : Z)
    (baseptr : ptr) (comm : Communicator) (rank : Z) (peer_baseptr : ptr)
  : M MPIContext unit :=
  MPIContext_AllocateSharedBuffer window_size element_size baseptr comm ;;
  MPIContext_QuerySharedBuffer rank peer_baseptr ;;
  MPIContext_FreeSharedBuffer.

(** ** Concrete data for the examples *)

Definition example_DataType_Name (d : DataType) : string :=
  match d with
  | HOROVOD_UINT8 => "uint8"
  | HOROVOD_INT8 => "int8"
  | HOROVOD_UINT16 => "uint16"
  | HOROVOD_INT16 => "int16"
  | HOROVOD_INT32 => "int32"
  | HOROVOD_INT64 => "int64"
  | HOROVOD_FLOAT16 => "float16"
  | HOROVOD_FLOAT32 => "float32"
  | HOROVOD_FLOAT64 => "float64"
  | HOROVOD_BOOL => "bool"
  | HOROVOD_BYTE => "byte"
  | HOROVOD_NULL => "null"
  | DataType_unlisted _ => "<unknown>"
  end.

Definition example_CommunicatorName (c : Communicator) : string :=
  match c with
  | GLOBAL => "global"
  | LOCAL => "local"
  | CROSS => "cross"
  | Communicator_unlisted _ => "<unknown>"
  end.

Definition example_context : MPIContext :=
  {| mpi_float16_t := MPI_Datatype_created 1;
     mpi_float16_sum := MPI_Op_created 1;
     mpi_comm := MPI_Comm_handle 10;
     local_comm := MPI_Comm_handle 11;
     cross_comm := MPI_Comm_handle 12;
     window := MPI_Win_handle 5 |}.

(** An outside world in which every MPI function returns [status]. *)
Definition answering (status : Z) : World :=
  fun _ c =>
    match c as c0 return Resp c0 with
    | MPI_Win_allocate_shared _ _ _ _ _ => (status, MPI_Win_handle 6)
    | MPI_Win_free _ => (status, MPI_Win_handle 0)
    | Timeline_ActivityStartAll _ _ => tt
    | Timeline_ActivityEndAll _ => tt
    | _ => status
    end.

(** An outside world in which a collective fails the first time it is called
    and succeeds from then on. *)
Definition failing_once : World :=
  fun hist c =>
    match c as c0 return Resp c0 with
    | MPI_Win_allocate_shared _ _ _ _ _ => (0, MPI_Win_handle 6)
    | MPI_Win_free _ => (0, MPI_Win_handle 0)
    | Timeline_ActivityStartAll _ _ => tt
    | Timeline_ActivityEndAll _ => tt
    | _ => match hist with [] => 1 | _ => 0 end
    end.

(** A context on which every call returns, and one on which every call
    throws [e]. *)
Definition returning : Behaviour := fun _ _ => None.
Definition throwing (e : exn) : Behaviour := fun _ _ => Some e.

Definition example_tensor (d : DataType) (p : ptr) : Tensor :=
  {| dtype := d; data := p |}.

Definition example_entry (d : DataType) (input out : ptr) : TensorTableEntry :=
  {| tensor := example_tensor d input; output := example_tensor d out |}.

(** ** Proof steps *)

Arguments GetMPIDataType : simpl never.
Arguments GetMPICommunicator : simpl never.

(** One step through a program: split on what a resolution returned or on a
    status test. *)
Ltac split_result :=
  match goal with
  | |- context [GetMPIDataType ?s ?d] =>
      destruct (GetMPIDataType s d)
  | |- context [GetMPICommunicator ?s ?c] =>
      destruct (GetMPICommunicator s c)
  | |- context [if negb (?x =? MPI_SUCCESS) then _ else _] =>
      destruct (x =? MPI_SUCCESS)
  | |- context [if ?b then _ else _] => destruct b
  end; cbn.

Ltac walk := cbn; unfold GetMPIDataType_tensor; repeat split_result.

Ltac open_hierarchical :=
  unfold calls_of, result_of, exec, cross_stage, cross_start,
    MPIHierarchicalAllgather_DoAllgatherv_MPI,
    MPIHierarchicalAllgather_DoAllgatherv, MPIContext_Allgatherv,
    MPIContext_Barrier.

(** ** Running programs: basic facts *)

Lemma run_pbind {A B : Type} (w : World) (p : Prog A) (f : A -> Prog B) :
  forall hist, run w (pbind p f) hist
               = run w (f (fst (run w p hist))) (snd (run w p hist)).
Proof.
  induction p as [a | c k IH]; intros hist; simpl.
  - reflexivity.
  - apply IH.
Qed.

(** ** The handles of a context are never reassigned *)

Lemma same_handles_refl (a : MPIContext) : same_handles a a.
Proof. repeat split. Qed.

Lemma same_handles_set_window (a : MPIContext) (win : MPI_Win) :
  same_handles (set_window a win) a.
Proof. repeat split. Qed.

Lemma same_handles_trans (a b c : MPIContext) :
  same_handles a b -> same_handles b c -> same_handles a c.
Proof.
  unfold same_handles. intros (?&?&?&?&?) (?&?&?&?&?).
  repeat split; congruence.
Qed.

Create HintDb handles.
#[local] Hint Resolve same_handles_refl same_handles_set_window : handles.

Lemma invoke_same_handles (w : World) (mc : MemberCall) :
  forall s hist, same_handles (snd (fst (run w (invoke mc s) hist))) s.
Proof.
  destruct mc as [ic | entries ? ? ? | | |]; [destruct ic | ..];
    intros s hist; unfold invoke, dispatch;
    try (destruct entries as [| first_entry rest]);
    unfold DoMPIAllreduce, MPIAllgather_DoAllgatherv,
      MPIHierarchicalAllgather_DoAllgatherv_MPI, MPIBroadcast_DoBroadcast_MPI,
      MPIHierarchicalAllgather_DoAllgatherv, MPIBroadcast_DoBroadcast;
    cbn [Allreduce Allgatherv Broadcast Barrier AllocateSharedBuffer
         FreeSharedBuffer QuerySharedBuffer GetTypeSize
         MPIContext_CommunicationContext];
    unfold MPIContext_Allreduce, MPIContext_Allgatherv, MPIContext_Broadcast,
      MPIContext_Barrier, MPIContext_AllocateSharedBuffer,
      MPIContext_FreeSharedBuffer, MPIContext_QuerySharedBuffer,
      MPIContext_GetTypeSize;
    walk; auto with handles.
Qed.

Lemma lifetime_same_handles (w : World) (calls : list MemberCall) :
  forall s hist, same_handles (snd (fst (run w (lifetime calls s) hist))) s.
Proof.
  induction calls as [| mc rest IH]; intros s hist; simpl.
  - apply same_handles_refl.
  - rewrite run_pbind.
    pose proof (invoke_same_handles w mc s hist) as Hmc.
    destruct (run w (invoke mc s) hist) as [[r s'] h]; simpl in *.
    destruct r; simpl; auto.
    + eapply same_handles_trans; [apply IH | exact Hmc].
    + eapply same_handles_trans; [apply IH | exact Hmc].
Qed.

Lemma carries_middle (pre name post : string) :
  carries (logic_error (pre ++ name ++ post)) name.
Proof. exists pre, post. reflexivity. Qed.

(** ** Resolution of datatypes and communicators *)

(** C1, as the code has it: [GetMPIDataType] returns the MPI null datatype
    handle for [HOROVOD_NULL] and does not throw; every supported datatype
    (uint8, int8, uint16, int16, int32, int64, float16, float32, float64,
    bool, byte) resolves to a handle; only a value that is none of the listed
    enumerators throws, and the error carries the name of the type. *)
Theorem GetMPIDataType_cases (this : MPIContext) :
  GetMPIDataType this HOROVOD_NULL = Ok MPI_DATATYPE_NULL /\
  (forall dtype : DataType,
     supported dtype = true ->
     exists handle, GetMPIDataType this dtype = Ok handle) /\
  (forall raw : Z,
     GetMPIDataType this (DataType_unlisted raw)
     = Throws (logic_error ("Type " ++ DataType_Name (DataType_unlisted raw)
                            ++ " is not supported in MPI mode.")) /\
     carries (logic_error ("Type " ++ DataType_Name (DataType_unlisted raw)
                           ++ " is not supported in MPI mode."))
       (DataType_Name (DataType_unlisted raw))).
Proof.
  split; [reflexivity | split].
  - intros dtype Hs. destruct dtype; try discriminate Hs; eexists; reflexivity.
  - intros raw. split; [reflexivity | apply carries_middle].
Qed.

(** C7: [GetMPICommunicator] returns the context's handle of each of the
    scopes GLOBAL, LOCAL and CROSS; whatever operations of this file the
    process has run on the context in between, it returns the same handle
    again; and for any other scope value it throws an error that carries the
    name of the scope. *)
Theorem GetMPICommunicator_scopes (this : MPIContext) :
  GetMPICommunicator this GLOBAL = Ok (mpi_comm this) /\
  GetMPICommunicator this LOCAL = Ok (local_comm this) /\
  GetMPICommunicator this CROSS = Ok (cross_comm this) /\
  (forall (w : World) (calls : list MemberCall) (scope : Communicator),
     GetMPICommunicator (object_of (exec w (lifetime calls) this)) scope
     = GetMPICommunicator this scope) /\
  (forall raw : Z,
     GetMPICommunicator this (Communicator_unlisted raw)
     = Throws (logic_error
                 ("Communicator " ++ CommunicatorName (Communicator_unlisted raw)
                  ++ " is not supported in MPI mode.")) /\
     carries (logic_error
                ("Communicator " ++ CommunicatorName (Communicator_unlisted raw)
                 ++ " is not supported in MPI mode."))
       (CommunicatorName (Communicator_unlisted raw))).
Proof.
  repeat (split; [reflexivity |]). split.
  - intros w calls scope. unfold object_of, exec.
    destruct (lifetime_same_handles w calls this []) as (_ & _ & Hg & Hl & Hc).
    destruct scope; unfold GetMPICommunicator; congruence.
  - intros raw. split; [reflexivity | apply carries_middle].
Qed.

(** ** Enablement *)

(** C8: the plain Allreduce, plain Allgather and Broadcast dispatchers are
    enabled for every configuration, batch and response; the hierarchical
    Allgather dispatcher is enabled exactly when the configuration's
    hierarchical-allgather flag is set. *)
Theorem Enabled_predicates (param_manager : ParameterManager)
    (entries : list TensorTableEntry) (response : MPIResponse) :
  MPIAllreduce_Enabled param_manager entries response = true /\
  MPIAllgather_Enabled param_manager entries response = true /\
  MPIBroadcast_Enabled param_manager entries response = true /\
  MPIHierarchicalAllgather_Enabled param_manager entries response
  = HierarchicalAllgather param_manager.
Proof. repeat split. Qed.

(** ** The shared window *)

(** C9: every call of [FreeSharedBuffer] makes exactly two calls into MPI,
    the fence on the window and then the release of that window, whatever
    the fence returns. *)
Theorem FreeSharedBuffer_fence_then_free (w : World) (this : MPIContext)
    (hist : list Call) :
  snd (run w (MPIContext_FreeSharedBuffer this) hist)
  = hist ++ [MPI_Win_fence 0 (window this); MPI_Win_free (window this)].
Proof. cbn. rewrite <- app_assoc. reflexivity. Qed.

(** ** Allreduce *)

Lemma listed_resolves (this : MPIContext) (d : DataType) :
  listed d = true -> exists handle, GetMPIDataType this d = Ok handle.
Proof. destruct d; intros H; try discriminate H; eexists; reflexivity. Qed.

Lemma unlisted_throws (this : MPIContext) (d : DataType) :
  listed d = false -> exists e, GetMPIDataType this d = Throws e.
Proof. destruct d; intros H; try discriminate H; eexists; reflexivity. Qed.

Lemma recognized_resolves (this : MPIContext) (comm : Communicator) :
  recognized comm = true -> exists c, GetMPICommunicator this comm = Ok c.
Proof. destruct comm; intros H; try discriminate H; eexists; reflexivity. Qed.

Lemma unrecognized_throws (this : MPIContext) (comm : Communicator) :
  recognized comm = false -> exists e, GetMPICommunicator this comm = Throws e.
Proof. destruct comm; intros H; try discriminate H; eexists; reflexivity. Qed.

Lemma Allreduce_run (w : World) (this : MPIContext) (buffer_data : ptr)
    (num_elements : Z) (first_entry : TensorTableEntry) (sendbuff : ptr)
    (comm : Communicator) (hist : list Call) (datatype : MPI_Datatype)
    (c : MPI_Comm) :
  GetMPIDataType this (dtype (tensor first_entry)) = Ok datatype ->
  GetMPICommunicator this comm = Ok c ->
  run w (MPIContext_Allreduce buffer_data num_elements first_entry sendbuff
           comm this) hist
  = let call := Allreduce_call this buffer_data num_elements first_entry
                  sendbuff datatype c in
    (if negb (w hist call =? MPI_SUCCESS)
     then Throws (logic_error
                    "MPI_Allreduce failed, see MPI output for details.")
     else Ok tt, this, hist ++ [call]).
Proof.
  intros Hd Hc. unfold MPIContext_Allreduce, Allreduce_call.
  cbn. unfold GetMPIDataType_tensor. rewrite Hd. cbn. rewrite Hc. cbn.
  match goal with
  | |- context [negb (?status =? MPI_SUCCESS)] =>
      destruct (status =? MPI_SUCCESS)
  end; reflexivity.
Qed.

(** The calls [MPIContext::Allreduce] makes: none when a handle does not
    resolve, else the one reduce. *)
Lemma Allreduce_calls (w : World) (this : MPIContext) (buffer_data : ptr)
    (num_elements : Z) (first_entry : TensorTableEntry) (sendbuff : ptr)
    (comm : Communicator) :
  calls_of (exec w (MPIContext_Allreduce buffer_data num_elements first_entry
                      sendbuff comm) this)
  = match GetMPIDataType this (dtype (tensor first_entry)),
          GetMPICommunicator this comm with
    | Ok datatype, Ok c =>
        [Allreduce_call this buffer_data num_elements first_entry sendbuff
           datatype c]
    | _, _ => []
    end.
Proof.
  unfold calls_of, exec.
  destruct (GetMPIDataType this (dtype (tensor first_entry)))
    as [dt | e |] eqn:Hd.
  - destruct (GetMPICommunicator this comm) as [c | e |] eqn:Hc.
    + rewrite (Allreduce_run w this buffer_data num_elements first_entry
                 sendbuff comm [] dt c Hd Hc).
      reflexivity.
    + unfold MPIContext_Allreduce. cbn. unfold GetMPIDataType_tensor.
      rewrite Hd. cbn. rewrite Hc. reflexivity.
    + unfold MPIContext_Allreduce. cbn. unfold GetMPIDataType_tensor.
      rewrite Hd. cbn. rewrite Hc. reflexivity.
  - unfold MPIContext_Allreduce. cbn. unfold GetMPIDataType_tensor.
    rewrite Hd. reflexivity.
  - unfold MPIContext_Allreduce. cbn. unfold GetMPIDataType_tensor.
    rewrite Hd. reflexivity.
Qed.

Lemma Allreduce_one_call (w : World) (this : MPIContext) (buffer_data : ptr)
    (num_elements : Z) (first_entry : TensorTableEntry) (sendbuff : ptr)
    (comm : Communicator) :
  listed (dtype (tensor first_entry)) = true ->
  recognized comm = true ->
  exists datatype c,
    GetMPIDataType this (dtype (tensor first_entry)) = Ok datatype /\
    GetMPICommunicator this comm = Ok c /\
    calls_of (exec w (MPIContext_Allreduce buffer_data num_elements
                        first_entry sendbuff comm) this)
    = [Allreduce_call this buffer_data num_elements first_entry sendbuff
         datatype c].
Proof.
  intros Hl Hr.
  destruct (listed_resolves this _ Hl) as [dt Hd].
  destruct (recognized_resolves this _ Hr) as [c Hc].
  exists dt, c. rewrite Allreduce_calls, Hd, Hc. auto.
Qed.

(** C4: in every call of [MPIContext::Allreduce], a null [sendbuff] makes the
    reduce in place ([MPI_IN_PLACE] is the send argument of [MPI_Allreduce]),
    and a non-null [sendbuff] is itself the send argument; in both cases the
    receive argument is [buffer_data].  The reduce is called exactly once
    whenever the datatype and the scope are ones the context resolves. *)
Theorem Allreduce_in_place_or_separate (w : World) (this : MPIContext)
    (buffer_data : ptr) (num_elements : Z) (first_entry : TensorTableEntry)
    (sendbuff : ptr) (comm : Communicator) :
  let calls :=
    calls_of (exec w (MPIContext_Allreduce buffer_data num_elements
                        first_entry sendbuff comm) this) in
  (sendbuff = nullptr ->
   forall call, In call calls ->
     exists datatype op c,
       call = MPI_Allreduce MPI_IN_PLACE buffer_data (int_cast num_elements)
                datatype op c) /\
  (sendbuff <> nullptr ->
   forall call, In call calls ->
     exists datatype op c,
       call = MPI_Allreduce (MPI_Buffer sendbuff) buffer_data
                (int_cast num_elements) datatype op c) /\
  (listed (dtype (tensor first_entry)) = true ->
   recognized comm = true ->
   List.length calls = 1%nat).
Proof.
  cbv zeta. rewrite Allreduce_calls. repeat split.
  - intros -> call Hin.
    destruct (GetMPIDataType this (dtype (tensor first_entry)));
      destruct (GetMPICommunicator this comm); try contradiction.
    destruct Hin as [<- | []]. unfold Allreduce_call.
    do 3 eexists. reflexivity.
  - intros Hn call Hin. apply Z.eqb_neq in Hn.
    destruct (GetMPIDataType this (dtype (tensor first_entry)));
      destruct (GetMPICommunicator this comm); try contradiction.
    destruct Hin as [<- | []]. unfold Allreduce_call. rewrite Hn.
    do 3 eexists. reflexivity.
  - intros Hl Hr.
    destruct (listed_resolves this _ Hl) as [dt ->].
    destruct (recognized_resolves this _ Hr) as [c ->]. reflexivity.
Qed.

(** C5: in every call of [MPIContext::Allreduce], the operator handed to
    [MPI_Allreduce] is the context's own float16 sum when the entry's
    datatype is 16-bit float, and [MPI_SUM] for every other datatype; for
    16-bit float the datatype handle is the context's own float16 type.  The
    reduce is called exactly once whenever the datatype and the scope are
    ones the context resolves, and no operation of this file reassigns
    either field, so it is the same operator and type on every call. *)
Theorem Allreduce_operator (w : World) (this : MPIContext)
    (buffer_data : ptr) (num_elements : Z) (first_entry : TensorTableEntry)
    (sendbuff : ptr) (comm : Communicator) :
  let calls :=
    calls_of (exec w (MPIContext_Allreduce buffer_data num_elements
                        first_entry sendbuff comm) this) in
  (dtype (tensor first_entry) = HOROVOD_FLOAT16 ->
   forall call, In call calls ->
     exists send c,
       call = MPI_Allreduce send buffer_data (int_cast num_elements)
                (mpi_float16_t this) (mpi_float16_sum this) c) /\
  (dtype (tensor first_entry) <> HOROVOD_FLOAT16 ->
   forall call, In call calls ->
     exists send datatype c,
       call = MPI_Allreduce send buffer_data (int_cast num_elements)
                datatype MPI_SUM c) /\
  (listed (dtype (tensor first_entry)) = true ->
   recognized comm = true ->
   List.length calls = 1%nat) /\
  (forall (w' : World) (calls' : list MemberCall),
     mpi_float16_sum (object_of (exec w' (lifetime calls') this))
     = mpi_float16_sum this /\
     mpi_float16_t (object_of (exec w' (lifetime calls') this))
     = mpi_float16_t this).
Proof.
  cbv zeta. rewrite Allreduce_calls. repeat split.
  - intros Hf call Hin. rewrite Hf in Hin.
    unfold GetMPIDataType in Hin.
    destruct (GetMPICommunicator this comm); try contradiction.
    destruct Hin as [<- | []]. unfold Allreduce_call. rewrite Hf.
    do 2 eexists. reflexivity.
  - intros Hf call Hin.
    destruct (GetMPIDataType this (dtype (tensor first_entry)));
      destruct (GetMPICommunicator this comm); try contradiction.
    destruct Hin as [<- | []]. unfold Allreduce_call, DataType_eqb.
    destruct (DataType_eq_dec (dtype (tensor first_entry)) HOROVOD_FLOAT16)
      as [E | _]; [contradiction |].
    do 3 eexists. reflexivity.
  - intros Hl Hr.
    destruct (listed_resolves this _ Hl) as [dt ->].
    destruct (recognized_resolves this _ Hr) as [c ->]. reflexivity.
  - destruct (lifetime_same_handles w' calls' this []) as (_ & H & _).
    exact H.
  - destruct (lifetime_same_handles w' calls' this []) as (H & _).
    exact H.
Qed.

(** C10: [DoMPIAllreduce] calls [MPIContext::Allreduce] on the GLOBAL scope
    with a send buffer that is non-null only if the batch has exactly one
    entry whose input data pointer differs from its output data pointer;
    with more than one entry, or with equal pointers in the first entry, the
    send buffer is null.  The one [MPI_Allreduce] call then made has
    [MPI_IN_PLACE] for a null send buffer and the buffer itself otherwise,
    and goes to the GLOBAL communicator. *)
Theorem DoMPIAllreduce_send_buffer (w : World) (this : MPIContext)
    (first_entry : TensorTableEntry) (rest : list TensorTableEntry)
    (buffer_data : ptr) (num_elements buffer_len : Z) :
  exists sendbuf : ptr,
    DoMPIAllreduce (first_entry :: rest) buffer_data num_elements buffer_len
    = MPIContext_Allreduce buffer_data num_elements first_entry sendbuf GLOBAL
    /\
    (sendbuf <> nullptr ->
     List.length (first_entry :: rest) = 1%nat /\
     data (tensor first_entry) <> data (output first_entry) /\
     sendbuf = data (tensor first_entry))
    /\
    ((1 < List.length (first_entry :: rest))%nat \/
     data (tensor first_entry) = data (output first_entry) ->
     sendbuf = nullptr)
    /\
    (listed (dtype (tensor first_entry)) = true ->
     exists (datatype : MPI_Datatype) (op : MPI_Op),
       calls_of (exec w (DoMPIAllreduce (first_entry :: rest) buffer_data
                           num_elements buffer_len) this)
       = [MPI_Allreduce
            (if sendbuf =? nullptr then MPI_IN_PLACE else MPI_Buffer sendbuf)
            buffer_data (int_cast num_elements) datatype op (mpi_comm this)]).
Proof.
  set (sendbuf :=
         if (1 <? Z.of_nat (List.length (first_entry :: rest)))
            || (data (tensor first_entry) =? data (output first_entry))
         then nullptr else data (tensor first_entry)).
  exists sendbuf.
  split; [reflexivity |]. split; [| split].
  - subst sendbuf. intros Hn.
    destruct (1 <? Z.of_nat (List.length (first_entry :: rest))) eqn:Hlen;
      destruct (data (tensor first_entry) =? data (output first_entry)) eqn:He;
      cbn [orb] in Hn; try (now contradiction Hn).
    apply Z.ltb_ge in Hlen. apply Z.eqb_neq in He.
    cbn [List.length] in *. repeat split; [lia | exact He].
  - subst sendbuf. intros Hc.
    destruct (1 <? Z.of_nat (List.length (first_entry :: rest))) eqn:Hlen;
      destruct (data (tensor first_entry) =? data (output first_entry)) eqn:He;
      cbn [orb]; try reflexivity.
    apply Z.ltb_ge in Hlen. apply Z.eqb_neq in He. cbn [List.length] in *.
    destruct Hc as [Hc | Hc]; [lia | contradiction].
  - intros Hl.
    change (DoMPIAllreduce (first_entry :: rest) buffer_data num_elements
              buffer_len)
      with (MPIContext_Allreduce buffer_data num_elements first_entry sendbuf
              GLOBAL).
    destruct (Allreduce_one_call w this buffer_data num_elements first_entry
                sendbuf GLOBAL Hl eq_refl) as (dt & c & _ & Hc & ->).
    injection Hc as <-. unfold Allreduce_call.
    exists dt,
      (if DataType_eqb (dtype (tensor first_entry)) HOROVOD_FLOAT16
       then mpi_float16_sum this else MPI_SUM).
    destruct (sendbuf =? nullptr); reflexivity.
Qed.

(** ** Hierarchical allgather *)

Lemma hierarchical_skipped (w : World) (this : MPIContext)
    (global_state_ : HorovodGlobalState) (entries : list TensorTableEntry)
    (sendbuf : ptr) (sendcount : Z) (sendtype : DataType) (recvbuf : ptr)
    (recvcounts displs : list Z) (recvtype : DataType) :
  is_homogeneous global_state_ = false ->
  local_rank global_state_ <> 0 ->
  exists tail,
    calls_of (exec w (MPIHierarchicalAllgather_DoAllgatherv_MPI global_state_
                        entries sendbuf sendcount sendtype recvbuf recvcounts
                        displs recvtype) this)
    = [cross_start entries; MPI_Barrier (mpi_comm this)] ++ tail /\
    (tail = [] \/ tail = [Timeline_ActivityEndAll entries]).
Proof.
  intros Hh Hr. apply Z.eqb_neq in Hr. open_hierarchical.
  rewrite Hh, Hr. cbn. unfold GetMPICommunicator. cbn.
  match goal with
  | |- context [negb (?status =? MPI_SUCCESS)] =>
      destruct (status =? MPI_SUCCESS)
  end; cbn; eexists; split; try reflexivity; auto.
Qed.

Lemma hierarchical_participating (w : World) (this : MPIContext)
    (global_state_ : HorovodGlobalState) (entries : list TensorTableEntry)
    (sendbuf : ptr) (sendcount : Z) (sendtype : DataType) (recvbuf : ptr)
    (recvcounts displs : list Z) (recvtype : DataType) :
  is_homogeneous global_state_ = true \/ local_rank global_state_ = 0 ->
  let stage := cross_stage w this entries sendbuf sendcount sendtype recvbuf
                 recvcounts displs recvtype in
  let all := exec w (MPIHierarchicalAllgather_DoAllgatherv_MPI global_state_
                       entries sendbuf sendcount sendtype recvbuf recvcounts
                       displs recvtype) this in
  match result_of stage with
  | Ok _ =>
      exists send st rt tail,
        calls_of stage
        = [cross_start entries;
           MPI_Allgatherv send sendcount st recvbuf recvcounts displs rt
             (cross_comm this)] /\
        calls_of all = calls_of stage ++ MPI_Barrier (mpi_comm this) :: tail /\
        (tail = [] \/ tail = [Timeline_ActivityEndAll entries])
  | Throws e =>
      result_of all = Throws e /\ calls_of all = calls_of stage /\
      (calls_of stage = [cross_start entries] \/
       exists send st rt,
         calls_of stage
         = [cross_start entries;
            MPI_Allgatherv send sendcount st recvbuf recvcounts displs rt
              (cross_comm this)])
  | Undefined => False
  end.
Proof.
  intros Hp.
  assert (Hc : is_homogeneous global_state_ || (local_rank global_state_ =? 0)
               = true).
  { destruct Hp as [-> | ->]; [reflexivity | apply orb_true_r]. }
  open_hierarchical. rewrite Hc. cbn.
  destruct (GetMPIDataType this sendtype) as [st | e |] eqn:Hs; cbn;
    [| auto | destruct sendtype; discriminate Hs].
  destruct (GetMPIDataType this recvtype) as [rt | e |] eqn:Hrt; cbn;
    [| auto | destruct recvtype; discriminate Hrt].
  unfold GetMPICommunicator. cbn.
  match goal with
  | |- context [negb (?status =? MPI_SUCCESS)] =>
      destruct (status =? MPI_SUCCESS)
  end; cbn.
  - unfold GetMPICommunicator. cbn.
    match goal with
    | |- context [negb (?status =? MPI_SUCCESS)] =>
        destruct (status =? MPI_SUCCESS)
    end; cbn; do 4 eexists; (split; [reflexivity |]); split;
      try reflexivity; auto.
  - repeat split. right. do 3 eexists. reflexivity.
Qed.

(** The calls [DoAllgatherv] makes on [comm_context_]. *)
Lemma hierarchical_recorded (behaviour : Behaviour) (w : World)
    (global_state_ : HorovodGlobalState) (entries : list TensorTableEntry)
    (sendbuf : ptr) (sendcount : Z) (sendtype : DataType) (recvbuf : ptr)
    (recvcounts displs : list Z) (recvtype : DataType) :
  let cross := call_Allgatherv sendbuf sendcount sendtype recvbuf recvcounts
                 displs recvtype CROSS in
  let out := exec w (MPIHierarchicalAllgather_DoAllgatherv_recorded behaviour
                       global_state_ entries sendbuf sendcount sendtype
                       recvbuf recvcounts displs recvtype) [] in
  if is_homogeneous global_state_ || (local_rank global_state_ =? 0)
  then match behaviour [] cross with
       | None => object_of out = [cross; call_Barrier GLOBAL]
       | Some e => object_of out = [cross] /\ result_of out = Throws e
       end
  else object_of out = [call_Barrier GLOBAL].
Proof.
  cbv zeta.
  unfold object_of, result_of, exec,
    MPIHierarchicalAllgather_DoAllgatherv_recorded,
    MPIHierarchicalAllgather_DoAllgatherv.
  destruct (is_homogeneous global_state_ || (local_rank global_state_ =? 0)).
  - cbn. unfold record. cbn.
    destruct (behaviour [] _) as [e |]; cbn.
    + split; reflexivity.
    + destruct (behaviour _ (call_Barrier GLOBAL)); reflexivity.
  - cbn. unfold record. cbn.
    destruct (behaviour [] (call_Barrier GLOBAL)); reflexivity.
Qed.

Lemma cross_stage_listed (w : World) (this : MPIContext)
    (entries : list TensorTableEntry)
    (sendbuf : ptr) (sendcount : Z) (sendtype : DataType) (recvbuf : ptr)
    (recvcounts displs : list Z) (recvtype : DataType) :
  listed sendtype = true ->
  listed recvtype = true ->
  exists send st rt,
    calls_of (cross_stage w this entries sendbuf sendcount sendtype recvbuf
                recvcounts displs recvtype)
    = [cross_start entries;
       MPI_Allgatherv send sendcount st recvbuf recvcounts displs rt
         (cross_comm this)].
Proof.
  intros Hs Hr.
  destruct (listed_resolves this _ Hs) as [st Hst].
  destruct (listed_resolves this _ Hr) as [rt Hrt].
  open_hierarchical. cbn. rewrite Hst. cbn. rewrite Hrt. cbn.
  unfold GetMPICommunicator. cbn.
  match goal with
  | |- context [negb (?status =? MPI_SUCCESS)] =>
      destruct (status =? MPI_SUCCESS)
  end; cbn; do 3 eexists; reflexivity.
Qed.

(** C2, as the code has it: the cross-node [Allgatherv] is skipped exactly by
    the ranks of a cluster that is not homogeneous whose local rank is not 0;
    on a homogeneous cluster every rank issues it, whatever its local rank,
    and so does local rank 0 of any cluster.  This holds of the calls made on
    [comm_context_], and of the MPI calls made when [comm_context_] is the
    [MPIContext]. *)
Theorem hierarchical_cross_allgatherv (behaviour : Behaviour) (w : World)
    (this : MPIContext)
    (global_state_ : HorovodGlobalState) (entries : list TensorTableEntry)
    (sendbuf : ptr) (sendcount : Z) (sendtype : DataType) (recvbuf : ptr)
    (recvcounts displs : list Z) (recvtype : DataType) :
  let cross := call_Allgatherv sendbuf sendcount sendtype recvbuf recvcounts
                 displs recvtype CROSS in
  let log :=
    object_of (exec w (MPIHierarchicalAllgather_DoAllgatherv_recorded
                         behaviour global_state_ entries sendbuf sendcount
                         sendtype recvbuf recvcounts displs recvtype) []) in
  let calls :=
    calls_of (exec w (MPIHierarchicalAllgather_DoAllgatherv_MPI global_state_
                        entries sendbuf sendcount sendtype recvbuf recvcounts
                        displs recvtype) this) in
  (is_homogeneous global_state_ = false ->
   local_rank global_state_ <> 0 ->
   log = [call_Barrier GLOBAL] /\
   count is_Allgatherv calls = 0%nat) /\
  (is_homogeneous global_state_ = true \/ local_rank global_state_ = 0 ->
   (log = [cross] \/ log = [cross; call_Barrier GLOBAL]) /\
   (listed sendtype = true ->
    listed recvtype = true ->
    count is_Allgatherv calls = 1%nat /\
    exists send st rt tail,
      calls = cross_start entries
              :: MPI_Allgatherv send sendcount st recvbuf recvcounts displs rt
                   (cross_comm this)
              :: tail)).
Proof.
  cbv zeta.
  pose proof (hierarchical_recorded behaviour w global_state_ entries sendbuf
                sendcount sendtype recvbuf recvcounts displs recvtype) as Hrec.
  cbv zeta in Hrec. split.
  - intros Hh Hr. split.
    + apply Z.eqb_neq in Hr. rewrite Hh, Hr in Hrec. exact Hrec.
    + destruct (hierarchical_skipped w this global_state_ entries sendbuf
                  sendcount sendtype recvbuf recvcounts displs recvtype Hh Hr)
        as (tail & -> & [-> | ->]); reflexivity.
  - intros Hp. split.
    + assert (Hc : is_homogeneous global_state_
                   || (local_rank global_state_ =? 0) = true).
      { destruct Hp as [-> | ->]; [reflexivity | apply orb_true_r]. }
      rewrite Hc in Hrec.
      destruct (behaviour [] _) as [e |]; [left; apply Hrec | right; exact Hrec].
    + intros Hs Hr.
      pose proof (hierarchical_participating w this global_state_ entries
                    sendbuf sendcount sendtype recvbuf recvcounts displs
                    recvtype Hp) as H.
      cbv zeta in H.
      destruct (cross_stage_listed w this entries sendbuf sendcount sendtype
                  recvbuf recvcounts displs recvtype Hs Hr)
        as (send & st & rt & Hstage).
      destruct (result_of (cross_stage w this entries sendbuf sendcount
                             sendtype recvbuf recvcounts displs recvtype)).
      * destruct H as (_ & _ & _ & tail & _ & -> & Ht). rewrite Hstage.
        split.
        -- destruct Ht as [-> | ->]; reflexivity.
        -- exists send, st, rt. eexists. reflexivity.
      * destruct H as (_ & -> & _). rewrite Hstage. split; [reflexivity |].
        exists send, st, rt, []. reflexivity.
      * contradiction.
Qed.

(** C6, as the code has it: a rank that skips the cross-node stage executes
    exactly one [Barrier], on the GLOBAL scope, and nothing else on its
    context; a rank whose cross-node [Allgatherv] returns executes exactly one
    [Barrier], on the GLOBAL scope, right after it; when the cross-node
    [Allgatherv] throws, the error leaves [DoAllgatherv] and no [Barrier] is
    executed.  This holds of the calls made on [comm_context_], and of the
    MPI calls made when [comm_context_] is the [MPIContext]. *)
Theorem hierarchical_barrier (behaviour : Behaviour) (w : World)
    (this : MPIContext)
    (global_state_ : HorovodGlobalState) (entries : list TensorTableEntry)
    (sendbuf : ptr) (sendcount : Z) (sendtype : DataType) (recvbuf : ptr)
    (recvcounts displs : list Z) (recvtype : DataType) :
  let cross := call_Allgatherv sendbuf sendcount sendtype recvbuf recvcounts
                 displs recvtype CROSS in
  let recorded :=
    exec w (MPIHierarchicalAllgather_DoAllgatherv_recorded behaviour
              global_state_ entries sendbuf sendcount sendtype recvbuf
              recvcounts displs recvtype) [] in
  let stage := cross_stage w this entries sendbuf sendcount sendtype recvbuf
                 recvcounts displs recvtype in
  let all := exec w (MPIHierarchicalAllgather_DoAllgatherv_MPI global_state_
                       entries sendbuf sendcount sendtype recvbuf recvcounts
                       displs recvtype) this in
  (is_homogeneous global_state_ = false ->
   local_rank global_state_ <> 0 ->
   object_of recorded = [call_Barrier GLOBAL] /\
   count is_Barrier (calls_of all) = 1%nat /\
   count is_Allgatherv (calls_of all) = 0%nat /\
   exists tail,
     calls_of all = [cross_start entries; MPI_Barrier (mpi_comm this)] ++ tail)
  /\
  (is_homogeneous global_state_ = true \/ local_rank global_state_ = 0 ->
   (behaviour [] cross = None ->
    object_of recorded = [cross; call_Barrier GLOBAL]) /\
   (forall e : exn,
      behaviour [] cross = Some e ->
      object_of recorded = [cross] /\ result_of recorded = Throws e) /\
   (result_of stage = Ok tt ->
    count is_Barrier (calls_of all) = 1%nat /\
    exists send st rt tail,
      calls_of all
      = [cross_start entries;
         MPI_Allgatherv send sendcount st recvbuf recvcounts displs rt
           (cross_comm this);
         MPI_Barrier (mpi_comm this)] ++ tail) /\
   (forall e : exn,
      result_of stage = Throws e ->
      result_of all = Throws e /\
      count is_Barrier (calls_of all) = 0%nat)).
Proof.
  cbv zeta.
  pose proof (hierarchical_recorded behaviour w global_state_ entries sendbuf
                sendcount sendtype recvbuf recvcounts displs recvtype) as Hrec.
  cbv zeta in Hrec. split.
  - intros Hh Hr.
    destruct (hierarchical_skipped w this global_state_ entries sendbuf
                sendcount sendtype recvbuf recvcounts displs recvtype Hh Hr)
      as (tail & -> & Ht).
    apply Z.eqb_neq in Hr. rewrite Hh, Hr in Hrec.
    repeat split.
    + exact Hrec.
    + destruct Ht as [-> | ->]; reflexivity.
    + destruct Ht as [-> | ->]; reflexivity.
    + exists tail. reflexivity.
  - intros Hp.
    assert (Hc : is_homogeneous global_state_
                 || (local_rank global_state_ =? 0) = true).
    { destruct Hp as [-> | ->]; [reflexivity | apply orb_true_r]. }
    rewrite Hc in Hrec.
    pose proof (hierarchical_participating w this global_state_ entries
                  sendbuf sendcount sendtype recvbuf recvcounts displs
                  recvtype Hp) as H.
    cbv zeta in H.
    split; [| split; [| split]].
    + intros Hb. rewrite Hb in Hrec. exact Hrec.
    + intros e Hb. rewrite Hb in Hrec. exact Hrec.
    + intros Hok. rewrite Hok in H.
      destruct H as (send & st & rt & tail & Hstage & -> & Ht).
      rewrite Hstage. split.
      * destruct Ht as [-> | ->]; reflexivity.
      * exists send, st, rt, tail. reflexivity.
    + intros e He. rewrite He in H.
      destruct H as (Hres & -> & Hstage). split; [exact Hres |].
      destruct Hstage as [-> | (send & st & rt & ->)]; reflexivity.
Qed.

(** ** Failure of a backend call *)

(** The four collectives test the status: when the call returns anything but
    [MPI_SUCCESS] they throw an error that names the primitive, having made
    that one call and no other. *)
Lemma collectives_fail_fatally (w : World) (this : MPIContext)
    (comm : Communicator) (c : MPI_Comm) :
  GetMPICommunicator this comm = Ok c ->
  (forall buffer_data num_elements first_entry sendbuff datatype,
     GetMPIDataType this (dtype (tensor first_entry)) = Ok datatype ->
     let call := Allreduce_call this buffer_data num_elements first_entry
                   sendbuff datatype c in
     w [] call <> MPI_SUCCESS ->
     exec w (MPIContext_Allreduce buffer_data num_elements first_entry
               sendbuff comm) this
     = (Throws (logic_error
                  "MPI_Allreduce failed, see MPI output for details."),
        this, [call])) /\
  (forall sendbuf sendcount sendtype recvbuf recvcounts displs recvtype st rt,
     GetMPIDataType this sendtype = Ok st ->
     GetMPIDataType this recvtype = Ok rt ->
     let call :=
       MPI_Allgatherv
         (if negb (sendbuf =? nullptr) then MPI_Buffer sendbuf
          else MPI_IN_PLACE)
         sendcount st recvbuf recvcounts displs rt c in
     w [] call <> MPI_SUCCESS ->
     exec w (MPIContext_Allgatherv sendbuf sendcount sendtype recvbuf
               recvcounts displs recvtype comm) this
     = (Throws (logic_error
                  "MPI_Allgatherv failed, see MPI output for details."),
        this, [call])) /\
  (forall buffer_data num_elements dt root_rank datatype,
     GetMPIDataType this dt = Ok datatype ->
     let call := MPI_Bcast buffer_data (int_cast num_elements) datatype
                   root_rank c in
     w [] call <> MPI_SUCCESS ->
     exec w (MPIContext_Broadcast buffer_data num_elements dt root_rank comm)
       this
     = (Throws (logic_error
                  "MPI_Broadcast failed, see MPI output for details."),
        this, [call])) /\
  (w [] (MPI_Barrier c) <> MPI_SUCCESS ->
   exec w (MPIContext_Barrier comm) this
   = (Throws (logic_error "MPI_Barrier failed, see MPI output for details."),
      this, [MPI_Barrier c])).
Proof.
  intros Hc. repeat split.
  - intros b n e sb dt Hd call Hf. unfold exec.
    rewrite (Allreduce_run w this b n e sb comm [] dt c Hd Hc). cbv zeta.
    fold call. apply Z.eqb_neq in Hf. rewrite Hf. reflexivity.
  - intros sb sc sty rb rc ds rty st rt Hs Hr call Hf. subst call.
    apply Z.eqb_neq in Hf.
    unfold exec, MPIContext_Allgatherv. cbn. rewrite Hs. cbn. rewrite Hr. cbn.
    rewrite Hc. cbn. rewrite Hf. reflexivity.
  - intros b n dt r datatype Hd call Hf. subst call. apply Z.eqb_neq in Hf.
    unfold exec, MPIContext_Broadcast. cbn -[int_cast]. rewrite Hd.
    cbn -[int_cast]. rewrite Hc. cbn -[int_cast]. rewrite Hf. reflexivity.
  - intros Hf. apply Z.eqb_neq in Hf.
    unfold exec, MPIContext_Barrier. cbn. rewrite Hc. cbn. rewrite Hf.
    reflexivity.
Qed.

Lemma failure_messages_name_the_primitive :
  carries (logic_error "MPI_Allreduce failed, see MPI output for details.")
    "Allreduce" /\
  carries (logic_error "MPI_Allgatherv failed, see MPI output for details.")
    "Allgatherv" /\
  carries (logic_error "MPI_Broadcast failed, see MPI output for details.")
    "Broadcast" /\
  carries (logic_error "MPI_Barrier failed, see MPI output for details.")
    "Barrier".
Proof.
  repeat split;
    exists "MPI_", " failed, see MPI output for details."; reflexivity.
Qed.

(** The three shared-buffer operations drop the status: whatever the MPI
    library answers, they return normally. *)
Lemma shared_buffer_ops_return (w : World) (this : MPIContext) :
  (forall window_size element_size baseptr comm,
     recognized comm = true ->
     result_of (exec w (MPIContext_AllocateSharedBuffer window_size
                          element_size baseptr comm) this) = Ok tt) /\
  (forall rank baseptr,
     result_of (exec w (MPIContext_QuerySharedBuffer rank baseptr) this)
     = Ok tt) /\
  result_of (exec w MPIContext_FreeSharedBuffer this) = Ok tt.
Proof.
  repeat split.
  intros ws es bp comm Hr.
  destruct (recognized_resolves this comm Hr) as [c Hc].
  unfold result_of, exec, MPIContext_AllocateSharedBuffer. cbn. rewrite Hc.
  reflexivity.
Qed.

(** ** Validation, frame and exception safety of the member functions *)

(** Case split on whether a datatype or a scope resolves. *)
Ltac resolve_arguments this :=
  repeat match goal with
  | |- context [listed ?d] =>
      let H := fresh "Hl" in
      destruct (listed d) eqn:H;
      [destruct (listed_resolves this d H) as [? ->]
      | destruct (unlisted_throws this d H) as [? ->]]
  | |- context [recognized ?c] =>
      let H := fresh "Hr" in
      destruct (recognized c) eqn:H;
      [destruct (recognized_resolves this c H) as [? ->]
      | destruct (unrecognized_throws this c H) as [? ->]]
  end.

Ltac open_members :=
  unfold dispatch;
  cbn [Allreduce Allgatherv Broadcast Barrier AllocateSharedBuffer
       FreeSharedBuffer QuerySharedBuffer GetTypeSize
       MPIContext_CommunicationContext];
  unfold MPIContext_Allreduce, MPIContext_Allgatherv, MPIContext_Broadcast,
    MPIContext_Barrier, MPIContext_AllocateSharedBuffer,
    MPIContext_FreeSharedBuffer, MPIContext_QuerySharedBuffer,
    MPIContext_GetTypeSize, GetMPIDataType_tensor.

(** X1: a member function of [MPIContext] resolves its datatypes and its
    scope before it touches the MPI library.  When one of them does not
    resolve it throws, makes no external call and leaves the context as it
    was; when all resolve it makes one or two calls, all into MPI. *)
Theorem unresolved_arguments_make_no_call (w : World) (this : MPIContext)
    (ic : InterfaceCall) :
  let out := exec w (dispatch (C := MPIContext) ic) this in
  if resolvable ic
  then (1 <= List.length (calls_of out) <= 2)%nat /\
       forallb is_MPI (calls_of out) = true
  else (exists e : exn, result_of out = Throws e) /\
       calls_of out = [] /\
       object_of out = this.
Proof.
  cbv zeta. unfold calls_of, result_of, object_of, exec.
  destruct ic; cbn [resolvable]; open_members; cbn;
    resolve_arguments this; cbn -[int_cast];
    repeat match goal with
    | |- context [negb (?status =? MPI_SUCCESS)] =>
        destruct (status =? MPI_SUCCESS); cbn -[int_cast]
    | |- context [negb (?p =? nullptr)] =>
        destruct (p =? nullptr); cbn -[int_cast]
    | |- context [DataType_eqb ?a ?b] =>
        destruct (DataType_eqb a b); cbn -[int_cast]
    end;
    repeat split; eauto; lia.
Qed.

Ltac open_invoke :=
  unfold invoke, DoMPIAllreduce, MPIAllgather_DoAllgatherv,
    MPIHierarchicalAllgather_DoAllgatherv_MPI, MPIBroadcast_DoBroadcast_MPI,
    MPIHierarchicalAllgather_DoAllgatherv, MPIBroadcast_DoBroadcast;
  open_members.

(** X2: of all the member functions and dispatchers, only
    [AllocateSharedBuffer] and [FreeSharedBuffer] write to the context; every
    other operation leaves all its fields, [window] included, as they were,
    whatever the MPI library answers and whether the operation returns or
    throws. *)
Theorem only_window_operations_write (w : World) (mc : MemberCall)
    (this : MPIContext) (hist : list Call) :
  writes_window mc = false ->
  snd (fst (run w (invoke mc this) hist)) = this.
Proof.
  destruct mc as [ic | entries ? ? ? | | |]; [destruct ic | ..];
    cbn [writes_window]; intros Hw; try discriminate Hw;
    try (destruct entries as [| first_entry rest]);
    open_invoke; walk; reflexivity.
Qed.


(** ** The collectives *)


(** X5: every MPI call [MPIContext::Allgatherv] makes is an [MPI_Allgatherv]
    whose send argument is [MPI_IN_PLACE] for a null [sendbuf] and [sendbuf]
    itself otherwise, with the send count, the receive buffer, the receive
    counts and the displacements handed on as given; it makes that call
    exactly once when both datatypes and the scope resolve. *)
Theorem Allgatherv_in_place_or_separate (w : World) (this : MPIContext)
    (sendbuf : ptr) (sendcount : Z) (sendtype : DataType) (recvbuf : ptr)
    (recvcounts displs : list Z) (recvtype : DataType) (comm : Communicator) :
  let calls :=
    calls_of (exec w (MPIContext_Allgatherv sendbuf sendcount sendtype recvbuf
                        recvcounts displs recvtype comm) this) in
  (forall call, In call calls ->
     exists st rt c,
       call = MPI_Allgatherv
                (if sendbuf =? nullptr then MPI_IN_PLACE
                 else MPI_Buffer sendbuf)
                sendcount st recvbuf recvcounts displs rt c) /\
  (listed sendtype = true ->
   listed recvtype = true ->
   recognized comm = true ->
   List.length calls = 1%nat).
Proof.
  cbv zeta. unfold calls_of, exec, MPIContext_Allgatherv. cbn.
  destruct (GetMPIDataType this sendtype) as [st | |] eqn:Hs; cbn;
    [| split; [intros ? [] | intros Hl; destruct (listed_resolves this _ Hl);
                             congruence] ..].
  destruct (GetMPIDataType this recvtype) as [rt | |] eqn:Hr; cbn;
    [| split; [intros ? [] | intros _ Hl; destruct (listed_resolves this _ Hl);
                             congruence] ..].
  destruct (GetMPICommunicator this comm) as [c | |] eqn:Hc; cbn;
    [| split; [intros ? [] | intros _ _ Hl;
                             destruct (recognized_resolves this _ Hl);
                             congruence] ..].
  match goal with
  | |- context [negb (?status =? MPI_SUCCESS)] =>
      destruct (status =? MPI_SUCCESS); cbn
  end;
    (split; [| reflexivity]);
    intros call [<- | []]; exists st, rt, c;
    destruct (sendbuf =? nullptr); reflexivity.
Qed.

(** The cast to [int] keeps a count that fits and wraps one that does not. *)
Lemma int_cast_range (n : Z) : - 2 ^ 31 <= int_cast n < 2 ^ 31.
Proof.
  unfold int_cast.
  pose proof (Z.mod_pos_bound (n + 2 ^ 31) (2 ^ 32) ltac:(lia)). lia.
Qed.

Lemma int_cast_fits (n : Z) : - 2 ^ 31 <= n < 2 ^ 31 -> int_cast n = n.
Proof.
  intros H. unfold int_cast. rewrite Z.mod_small by lia. lia.
Qed.

Lemma int_cast_wraps (n : Z) : (int_cast n - n) mod 2 ^ 32 = 0.
Proof.
  unfold int_cast.
  rewrite (Z.mod_eq (n + 2 ^ 31) (2 ^ 32)) by lia.
  replace (n + 2 ^ 31 - 2 ^ 32 * ((n + 2 ^ 31) / 2 ^ 32) - 2 ^ 31 - n)
    with ((- ((n + 2 ^ 31) / 2 ^ 32)) * 2 ^ 32) by lia.
  apply Z.mod_mul. lia.
Qed.

(** X6: [MPIContext::Broadcast] hands the buffer and the root rank to
    [MPI_Bcast] as given, with no check of the root of its own, and the
    element count cast to [int]: a count within the range of [int] arrives
    unchanged, a larger one arrives wrapped modulo 2^32. *)
Theorem Broadcast_arguments (w : World) (this : MPIContext)
    (buffer_data : ptr) (num_elements : Z) (dt : DataType) (root_rank : Z)
    (comm : Communicator) :
  listed dt = true ->
  recognized comm = true ->
  exists (count : Z) (datatype : MPI_Datatype) (c : MPI_Comm),
    calls_of (exec w (MPIContext_Broadcast buffer_data num_elements dt
                        root_rank comm) this)
    = [MPI_Bcast buffer_data count datatype root_rank c] /\
    GetMPIDataType this dt = Ok datatype /\
    GetMPICommunicator this comm = Ok c /\
    - 2 ^ 31 <= count < 2 ^ 31 /\
    (count - num_elements) mod 2 ^ 32 = 0 /\
    (- 2 ^ 31 <= num_elements < 2 ^ 31 -> count = num_elements).
Proof.
  intros Hl Hr.
  destruct (listed_resolves this _ Hl) as [datatype Hd].
  destruct (recognized_resolves this _ Hr) as [c Hc].
  exists (int_cast num_elements), datatype, c.
  split; [| split; [exact Hd | split; [exact Hc |]]].
  - unfold calls_of, exec, MPIContext_Broadcast. cbn -[int_cast].
    rewrite Hd. cbn -[int_cast]. rewrite Hc. cbn -[int_cast].
    match goal with
    | |- context [negb (?status =? MPI_SUCCESS)] =>
        destruct (status =? MPI_SUCCESS)
    end; reflexivity.
  - split; [apply int_cast_range |].
    split; [apply int_cast_wraps | apply int_cast_fits].
Qed.

(** X7: the same holds of the count [MPIContext::Allreduce] hands to
    [MPI_Allreduce]: it is the element count cast to [int], unchanged within
    the range of [int] and wrapped modulo 2^32 beyond it. *)
Theorem Allreduce_count (w : World) (this : MPIContext)
    (buffer_data : ptr) (num_elements : Z) (first_entry : TensorTableEntry)
    (sendbuff : ptr) (comm : Communicator) :
  forall call,
    In call (calls_of (exec w (MPIContext_Allreduce buffer_data num_elements
                                 first_entry sendbuff comm) this)) ->
    exists send count datatype op c,
      call = MPI_Allreduce send buffer_data count datatype op c /\
      - 2 ^ 31 <= count < 2 ^ 31 /\
      (count - num_elements) mod 2 ^ 32 = 0 /\
      (- 2 ^ 31 <= num_elements < 2 ^ 31 -> count = num_elements).
Proof.
  intros call. rewrite Allreduce_calls.
  destruct (GetMPIDataType this (dtype (tensor first_entry)));
    destruct (GetMPICommunicator this comm); try contradiction.
  intros [<- | []]. unfold Allreduce_call.
  do 5 eexists. split; [reflexivity |].
  split; [apply int_cast_range |].
  split; [apply int_cast_wraps | apply int_cast_fits].
Qed.

(** ** The shared window, from allocation to release *)

(** X8: allocate, query, free act on one window.  The handle MPI writes on
    allocation is the one the query, the fence and the release are called
    with; after the release the context holds the handle that [MPI_Win_free]
    wrote back.  None of the four statuses is looked at. *)
Theorem shared_buffer_lifecycle_one_window (w : World) (this : MPIContext)
    (window_size element_size : Z) (baseptr : ptr) (comm : Communicator)
    (rank : Z) (peer_baseptr : ptr) (c : MPI_Comm) :
  GetMPICommunicator this comm = Ok c ->
  let allocate :=
    MPI_Win_allocate_shared window_size element_size MPI_INFO_NULL c baseptr in
  let win := snd (w [] allocate) in
  let query := MPI_Win_shared_query win rank peer_baseptr in
  let fence := MPI_Win_fence 0 win in
  let free := MPI_Win_free win in
  exec w (shared_buffer_lifecycle window_size element_size baseptr comm rank
            peer_baseptr) this
  = (Ok tt,
     set_window this (snd (w [allocate; query; fence] free)),
     [allocate; query; fence; free]).
Proof.
  intros Hc. cbv zeta.
  unfold exec, shared_buffer_lifecycle, MPIContext_AllocateSharedBuffer,
    MPIContext_QuerySharedBuffer, MPIContext_FreeSharedBuffer.
  cbn. rewrite Hc. cbn. reflexivity.
Qed.

(** ** The timeline around a dispatcher *)

(** X9: the dispatchers that record on the timeline open with the activity
    start, make only MPI calls after it, and record the activity end as
    their last call exactly when they return normally: an operation that
    throws leaves its activity open. *)
Theorem timeline_end_iff_returned (w : World) (this : MPIContext)
    (mc : MemberCall) (activity : Activity)
    (entries : list TensorTableEntry) :
  timeline_activity mc = Some (activity, entries) ->
  let out := exec w (invoke mc) this in
  calls_of out
  = Timeline_ActivityStartAll entries activity
    :: filter is_MPI (calls_of out)
    ++ match result_of out with
       | Ok _ => [Timeline_ActivityEndAll entries]
       | _ => []
       end.
Proof.
  cbv zeta. unfold calls_of, result_of, exec.
  destruct mc as [ic | | | |]; cbn [timeline_activity]; intros Ha;
    try discriminate Ha; injection Ha as <- <-;
    open_invoke; walk; reflexivity.
Qed.

(** ** Where the dispatchers send their collectives *)

(** X10: the plain allgather and the broadcast dispatcher always work on the
    GLOBAL communicator: every MPI call [MPIAllgather::DoAllgatherv] makes is
    an [MPI_Allgatherv] on [mpi_comm], every MPI call
    [MPIBroadcast::DoBroadcast] makes is an [MPI_Bcast] on [mpi_comm] with
    the root rank as given; each makes exactly one such call when its
    datatypes resolve, and none otherwise. *)
Theorem plain_dispatchers_use_global (w : World) (this : MPIContext)
    (entries : list TensorTableEntry) :
  (forall sendbuf sendcount sendtype recvbuf recvcounts displs recvtype,
     let mpi_calls :=
       filter is_MPI
         (calls_of (exec w (MPIAllgather_DoAllgatherv entries sendbuf
                              sendcount sendtype recvbuf recvcounts displs
                              recvtype) this)) in
     (forall call, In call mpi_calls ->
        exists send st rt,
          call = MPI_Allgatherv send sendcount st recvbuf recvcounts displs rt
                   (mpi_comm this)) /\
     List.length mpi_calls
     = (if listed sendtype && listed recvtype then 1%nat else 0%nat)) /\
  (forall buffer_data num_elements dt root_rank,
     let mpi_calls :=
       filter is_MPI
         (calls_of (exec w (MPIBroadcast_DoBroadcast_MPI entries buffer_data
                              num_elements dt root_rank) this)) in
     (forall call, In call mpi_calls ->
        exists count datatype,
          call = MPI_Bcast buffer_data count datatype root_rank
                   (mpi_comm this)) /\
     List.length mpi_calls = (if listed dt then 1%nat else 0%nat)).
Proof.
  split.
  - intros sendbuf sendcount sendtype recvbuf recvcounts displs recvtype.
    cbv zeta. unfold calls_of, exec, MPIAllgather_DoAllgatherv. open_members.
    cbn. resolve_arguments this; cbn;
      try (split; [intros ? [] | reflexivity]).
    unfold GetMPICommunicator. cbn.
    match goal with
    | |- context [negb (?status =? MPI_SUCCESS)] =>
        destruct (status =? MPI_SUCCESS); cbn
    end;
      (split; [| reflexivity]);
      intros call [<- | []]; do 3 eexists; reflexivity.
  - intros buffer_data num_elements dt root_rank.
    cbv zeta.
    unfold calls_of, exec, MPIBroadcast_DoBroadcast_MPI,
      MPIBroadcast_DoBroadcast.
    open_members. cbn -[int_cast]. resolve_arguments this; cbn -[int_cast];
      try (split; [intros ? [] | reflexivity]).
    unfold GetMPICommunicator. cbn -[int_cast].
    match goal with
    | |- context [negb (?status =? MPI_SUCCESS)] =>
        destruct (status =? MPI_SUCCESS); cbn -[int_cast]
    end;
      (split; [| reflexivity]);
      intros call [<- | []]; do 2 eexists; reflexivity.
Qed.

(** X11: [DoMPIAllreduce] reduces in place exactly when the batch has more
    than one entry, or the first entry's input and output data pointers are
    equal, or its input data pointer is null; in every other case the send
    buffer is the first entry's input data.  The rest of a fused batch and
    [buffer_len] are not consulted: the datatype and the operator are those
    of the first entry alone. *)
Theorem DoMPIAllreduce_in_place_iff (w : World) (this : MPIContext)
    (first_entry : TensorTableEntry) (rest : list TensorTableEntry)
    (buffer_data : ptr) (num_elements buffer_len : Z) :
  (listed (dtype (tensor first_entry)) = true ->
   exists (send : MPI_Buf) (datatype : MPI_Datatype) (op : MPI_Op),
     calls_of (exec w (DoMPIAllreduce (first_entry :: rest) buffer_data
                         num_elements buffer_len) this)
     = [MPI_Allreduce send buffer_data (int_cast num_elements) datatype op
          (mpi_comm this)] /\
     (send = MPI_IN_PLACE <->
      rest <> [] \/
      data (tensor first_entry) = data (output first_entry) \/
      data (tensor first_entry) = nullptr) /\
     (send <> MPI_IN_PLACE -> send = MPI_Buffer (data (tensor first_entry))))
  /\
  (forall (second : TensorTableEntry) (others rest' : list TensorTableEntry)
          (buffer_len' : Z),
     rest = second :: others ->
     rest' <> [] ->
     DoMPIAllreduce (first_entry :: rest) buffer_data num_elements buffer_len
     = DoMPIAllreduce (first_entry :: rest') buffer_data num_elements
         buffer_len').
Proof.
  split.
  - intros Hl.
    destruct (listed_resolves this _ Hl) as [dt Hd].
    set (sendbuf :=
           if (1 <? Z.of_nat (List.length (first_entry :: rest)))
              || (data (tensor first_entry) =? data (output first_entry))
           then nullptr else data (tensor first_entry)).
    change (DoMPIAllreduce (first_entry :: rest) buffer_data num_elements
              buffer_len)
      with (MPIContext_Allreduce buffer_data num_elements first_entry sendbuf
              GLOBAL).
    unfold calls_of, exec.
    rewrite (Allreduce_run w this buffer_data num_elements first_entry
               sendbuf GLOBAL [] dt (mpi_comm this) Hd eq_refl).
    cbv zeta. cbn [snd app]. unfold Allreduce_call.
    do 3 eexists. split; [reflexivity |].
    subst sendbuf.
    assert (Hlen : (1 <? Z.of_nat (List.length (first_entry :: rest)))
                   = match rest with [] => false | _ => true end).
    { destruct rest; [reflexivity |].
      apply Z.ltb_lt. cbn [List.length]. lia. }
    rewrite Hlen. clear Hlen.
    destruct rest as [| second others].
    + cbn [orb].
      destruct (data (tensor first_entry) =? data (output first_entry))
        eqn:He.
      * apply Z.eqb_eq in He. rewrite Z.eqb_refl. cbn [negb].
        split; [split; [intros _; right; left; exact He | reflexivity] |].
        intros H. now contradiction H.
      * apply Z.eqb_neq in He.
        destruct (data (tensor first_entry) =? nullptr) eqn:Hn; cbn [negb].
        -- apply Z.eqb_eq in Hn.
           split; [split; [intros _; right; right; exact Hn | reflexivity] |].
           intros H. now contradiction H.
        -- apply Z.eqb_neq in Hn. split; [| reflexivity].
           split; [discriminate |].
           intros [H | [H | H]]; [now contradiction H | contradiction
                                 | contradiction].
    + cbn [orb]. rewrite Z.eqb_refl. cbn [negb].
      split; [split; [intros _; left; discriminate | reflexivity] |].
      intros H. now contradiction H.
  - intros second others rest' buffer_len' -> Hne.
    destruct rest' as [| second' others']; [now contradiction Hne |].
    unfold DoMPIAllreduce.
    assert (H1 : (1 <? Z.of_nat (List.length
                                   (first_entry :: second :: others)))
                 = true).
    { apply Z.ltb_lt. cbn [List.length]. lia. }
    assert (H2 : (1 <? Z.of_nat (List.length
                                   (first_entry :: second' :: others')))
                 = true).
    { apply Z.ltb_lt. cbn [List.length]. lia. }
    rewrite H1, H2. reflexivity.
Qed.

(** ** Datatype handles *)

(** X12: as long as the context's float16 type is a handle created at run
    time, [GetMPIDataType] sends different listed datatypes to different
    handles; so [HOROVOD_NULL] is the only datatype that resolves to
    [MPI_DATATYPE_NULL]. *)
Theorem GetMPIDataType_injective (this : MPIContext) (handle : Z)
    (a b : DataType) :
  mpi_float16_t this = MPI_Datatype_created handle ->
  listed a = true ->
  listed b = true ->
  GetMPIDataType this a = GetMPIDataType this b ->
  a = b.
Proof.
  intros Hf Ha Hb. unfold GetMPIDataType. rewrite Hf.
  destruct a; try discriminate Ha; destruct b; try discriminate Hb;
    intros H; try reflexivity; discriminate H.
Qed.

(** X13: [GetTypeSize] asks MPI once for the size of the resolved type and
    returns normally whatever status [MPI_Type_size] reports; for
    [HOROVOD_NULL] the type it asks about is [MPI_DATATYPE_NULL]. *)
Theorem GetTypeSize_ignores_status (w : World) (this : MPIContext)
    (dt : DataType) (out : ptr) :
  listed dt = true ->
  exists datatype : MPI_Datatype,
    GetMPIDataType this dt = Ok datatype /\
    (dt = HOROVOD_NULL -> datatype = MPI_DATATYPE_NULL) /\
    exec w (MPIContext_GetTypeSize dt out) this
    = (Ok tt, this, [MPI_Type_size datatype out]).
Proof.
  intros Hl. destruct (listed_resolves this _ Hl) as [datatype Hd].
  exists datatype. split; [exact Hd | split].
  - intros ->. unfold GetMPIDataType in Hd. congruence.
  - unfold exec, MPIContext_GetTypeSize. cbn. rewrite Hd. reflexivity.
Qed.

(** ** Releases of the window over a process lifetime *)

Lemma frees_fenced_app (prev : option Call) (a b : list Call) :
  frees_fenced prev a -> frees_fenced None b -> frees_fenced prev (a ++ b).
Proof.
  revert prev. induction a as [| c a IH]; intros prev Ha Hb; cbn.
  - destruct b as [| c b]; [exact I |].
    cbn in Hb |- *. destruct Hb as [Hc Hb]. split; [| exact Hb].
    intros win E. specialize (Hc win E). discriminate Hc.
  - cbn in Ha. destruct Ha as [Hc Ha]. split; [exact Hc |]. now apply IH.
Qed.

(** What one operation adds to the calls made so far. *)
Lemma invoke_appends_fenced (w : World) (mc : MemberCall) (s : MPIContext)
    (hist : list Call) :
  exists seg,
    snd (run w (invoke mc s) hist) = hist ++ seg /\ frees_fenced None seg.
Proof.
  destruct mc as [ic | entries ? ? ? | | |]; [destruct ic | ..];
    try (destruct entries as [| first_entry rest]);
    open_invoke; walk; rewrite <- ?app_assoc; cbn [app];
    first
      [ exists []; split; [symmetry; apply app_nil_r | exact I]
      | eexists; split; [reflexivity |];
        cbn; repeat split;
        intros win E; try discriminate E; injection E as <-; reflexivity ].
Qed.

Lemma lifetime_appends_fenced (w : World) (calls : list MemberCall) :
  forall (s : MPIContext) (hist : list Call),
  exists seg,
    snd (run w (lifetime calls s) hist) = hist ++ seg /\ frees_fenced None seg.
Proof.
  induction calls as [| mc rest IH]; intros s hist; simpl.
  - exists []. split; [symmetry; apply app_nil_r | exact I].
  - rewrite run_pbind.
    destruct (invoke_appends_fenced w mc s hist) as (seg1 & E1 & F1).
    destruct (run w (invoke mc s) hist) as [[r s'] h]; simpl in *. subst h.
    destruct r; simpl.
    + destruct (IH s' (hist ++ seg1)) as (seg2 & -> & F2).
      exists (seg1 ++ seg2). rewrite app_assoc. split; [reflexivity |].
      now apply frees_fenced_app.
    + destruct (IH s' (hist ++ seg1)) as (seg2 & -> & F2).
      exists (seg1 ++ seg2). rewrite app_assoc. split; [reflexivity |].
      now apply frees_fenced_app.
    + exists seg1. split; [reflexivity | exact F1].
Qed.

(** X14: over a whole process lifetime, whatever operations run and whatever
    MPI answers, a window is never released without a fence of that same
    window as the call made just before: only [FreeSharedBuffer] releases,
    and nothing comes between its fence and its release. *)
Theorem lifetime_frees_fenced (w : World) (calls : list MemberCall)
    (this : MPIContext) :
  frees_fenced None (calls_of (exec w (lifetime calls) this)).
Proof.
  unfold calls_of, exec.
  destruct (lifetime_appends_fenced w calls this []) as (seg & -> & F).
  exact F.
Qed.

End MPIOperations.

(** ** The properties on concrete runs *)

(** C3: where the MPI library answers every call with the status 1, the three
    shared-buffer operations return normally: [AllocateSharedBuffer],
    [QuerySharedBuffer] and [FreeSharedBuffer] make their MPI calls and throw
    nothing, where the collectives throw. *)
Theorem shared_buffer_failure_ignored :
  exec (answering 1)
    (MPIContext_AllocateSharedBuffer example_CommunicatorName 1024 4 4096
       LOCAL) example_context
  = (Ok tt, set_window example_context (MPI_Win_handle 6),
     [MPI_Win_allocate_shared 1024 4 MPI_INFO_NULL (MPI_Comm_handle 11) 4096])
  /\
  exec (answering 1) (MPIContext_QuerySharedBuffer 1 4096) example_context
  = (Ok tt, example_context,
     [MPI_Win_shared_query (MPI_Win_handle 5) 1 4096])
  /\
  exec (answering 1) MPIContext_FreeSharedBuffer example_context
  = (Ok tt, set_window example_context (MPI_Win_handle 0),
     [MPI_Win_fence 0 (MPI_Win_handle 5); MPI_Win_free (MPI_Win_handle 5)])
  /\
  exec (answering 1) (MPIContext_Barrier example_CommunicatorName LOCAL)
    example_context
  = (Throws (logic_error "MPI_Barrier failed, see MPI output for details."),
     example_context, [MPI_Barrier (MPI_Comm_handle 11)]).
Proof. repeat split. Qed.

(** A collective that fails is not called again, even where a second call
    would succeed. *)
Example Barrier_not_retried :
  exec failing_once (MPIContext_Barrier example_CommunicatorName GLOBAL)
    example_context
  = (Throws (logic_error "MPI_Barrier failed, see MPI output for details."),
     example_context, [MPI_Barrier (MPI_Comm_handle 10)]).
Proof. reflexivity. Qed.

(** [HOROVOD_NULL] resolves to the MPI null datatype handle; it does not
    throw. *)
Lemma GetMPIDataType_NULL_returns :
  GetMPIDataType example_DataType_Name example_context HOROVOD_NULL
  = Ok MPI_DATATYPE_NULL /\
  ~ (exists e : exn,
       GetMPIDataType example_DataType_Name example_context HOROVOD_NULL
       = Throws e).
Proof.
  split; [reflexivity |]. intros [e He]. discriminate He.
Qed.

Lemma GetMPIDataType_cases_witness :
  supported HOROVOD_INT32 = true /\
  exists handle,
    GetMPIDataType example_DataType_Name example_context HOROVOD_INT32
    = Ok handle.
Proof.
  split; [reflexivity |].
  apply (proj1 (proj2 (GetMPIDataType_cases example_DataType_Name
                         example_context))).
  reflexivity.
Defined.

(** On a homogeneous cluster a rank with local rank 1 issues the cross-node
    [Allgatherv]. *)
Lemma hierarchical_homogeneous_rank1_issues :
  let global_state_ := {| is_homogeneous := true; local_rank := 1 |} in
  let entries := [example_entry HOROVOD_FLOAT32 100 200] in
  let log :=
    object_of (exec (answering 0)
                 (MPIHierarchicalAllgather_DoAllgatherv_recorded returning
                    global_state_ entries
                    100 4 HOROVOD_FLOAT32 200 [4; 4] [0; 4] HOROVOD_FLOAT32)
                 []) in
  let calls :=
    calls_of (exec (answering 0)
                (MPIHierarchicalAllgather_DoAllgatherv_MPI
                   example_DataType_Name example_CommunicatorName
                   global_state_ entries
                   100 4 HOROVOD_FLOAT32 200 [4; 4] [0; 4] HOROVOD_FLOAT32)
                example_context) in
  is_homogeneous global_state_ = true /\
  local_rank global_state_ <> 0 /\
  log = [call_Allgatherv 100 4 HOROVOD_FLOAT32 200 [4; 4] [0; 4]
           HOROVOD_FLOAT32 CROSS;
         call_Barrier GLOBAL] /\
  calls = [Timeline_ActivityStartAll entries MPI_CROSS_ALLGATHER;
           MPI_Allgatherv (MPI_Buffer 100) 4 MPI_FLOAT 200 [4; 4] [0; 4]
             MPI_FLOAT (MPI_Comm_handle 12);
           MPI_Barrier (MPI_Comm_handle 10);
           Timeline_ActivityEndAll entries] /\
  count is_Allgatherv calls <> 0%nat.
Proof.
  cbv zeta. split; [reflexivity |]. split; [discriminate |].
  split; [reflexivity |]. split; [reflexivity | discriminate].
Qed.

Lemma hierarchical_cross_allgatherv_witness :
  let log_rank1_hetero :=
    object_of (exec (answering 0)
                 (MPIHierarchicalAllgather_DoAllgatherv_recorded returning
                    {| is_homogeneous := false; local_rank := 1 |} []
                    100 4 HOROVOD_FLOAT32 200 [4; 4] [0; 4] HOROVOD_FLOAT32)
                 []) in
  let calls_rank1_hetero :=
    calls_of (exec (answering 0)
                (MPIHierarchicalAllgather_DoAllgatherv_MPI
                   example_DataType_Name example_CommunicatorName
                   {| is_homogeneous := false; local_rank := 1 |} []
                   100 4 HOROVOD_FLOAT32 200 [4; 4] [0; 4] HOROVOD_FLOAT32)
                example_context) in
  let calls_rank1_homo :=
    calls_of (exec (answering 0)
                (MPIHierarchicalAllgather_DoAllgatherv_MPI
                   example_DataType_Name example_CommunicatorName
                   {| is_homogeneous := true; local_rank := 1 |} []
                   100 4 HOROVOD_FLOAT32 200 [4; 4] [0; 4] HOROVOD_FLOAT32)
                example_context) in
  (log_rank1_hetero = [call_Barrier GLOBAL] /\
   count is_Allgatherv calls_rank1_hetero = 0%nat) /\
  count is_Allgatherv calls_rank1_homo = 1%nat.
Proof.
  cbv zeta. split.
  - apply (proj1 (hierarchical_cross_allgatherv example_DataType_Name
                    example_CommunicatorName returning (answering 0)
                    example_context
                    {| is_homogeneous := false; local_rank := 1 |} []
                    100 4 HOROVOD_FLOAT32 200 [4; 4] [0; 4] HOROVOD_FLOAT32)).
    + reflexivity.
    + cbn. lia.
  - apply (proj2 (proj2 (hierarchical_cross_allgatherv example_DataType_Name
                    example_CommunicatorName returning (answering 0)
                    example_context
                    {| is_homogeneous := true; local_rank := 1 |} []
                    100 4 HOROVOD_FLOAT32 200 [4; 4] [0; 4] HOROVOD_FLOAT32)
                    (or_introl eq_refl))).
    + reflexivity.
    + reflexivity.
Defined.

(** Where the cross-node [Allgatherv] fails, [DoAllgatherv] throws and
    executes no [Barrier]. *)
Lemma hierarchical_failed_stage_no_barrier :
  let global_state_ := {| is_homogeneous := true; local_rank := 0 |} in
  let entries := [example_entry HOROVOD_FLOAT32 100 200] in
  let all :=
    exec (answering 1)
      (MPIHierarchicalAllgather_DoAllgatherv_MPI
         example_DataType_Name example_CommunicatorName
         global_state_ entries
         100 4 HOROVOD_FLOAT32 200 [4; 4] [0; 4] HOROVOD_FLOAT32)
      example_context in
  result_of all
  = Throws (logic_error "MPI_Allgatherv failed, see MPI output for details.")
  /\
  calls_of all
  = [Timeline_ActivityStartAll entries MPI_CROSS_ALLGATHER;
     MPI_Allgatherv (MPI_Buffer 100) 4 MPI_FLOAT 200 [4; 4] [0; 4] MPI_FLOAT
       (MPI_Comm_handle 12)] /\
  count is_Barrier (calls_of all) <> 1%nat /\
  object_of
    (exec (answering 1)
       (MPIHierarchicalAllgather_DoAllgatherv_recorded
          (throwing
             (logic_error
                "MPI_Allgatherv failed, see MPI output for details."))
          global_state_ entries
          100 4 HOROVOD_FLOAT32 200 [4; 4] [0; 4] HOROVOD_FLOAT32) [])
  = [call_Allgatherv 100 4 HOROVOD_FLOAT32 200 [4; 4] [0; 4] HOROVOD_FLOAT32
       CROSS].
Proof.
  cbv zeta. split; [reflexivity |]. split; [reflexivity |].
  split; [discriminate | reflexivity].
Qed.

Lemma hierarchical_barrier_witness :
  let skipped :=
    exec (answering 0)
      (MPIHierarchicalAllgather_DoAllgatherv_MPI
         example_DataType_Name example_CommunicatorName
         {| is_homogeneous := false; local_rank := 1 |} []
         100 4 HOROVOD_FLOAT32 200 [4; 4] [0; 4] HOROVOD_FLOAT32)
      example_context in
  let returned :=
    exec (answering 0)
      (MPIHierarchicalAllgather_DoAllgatherv_MPI
         example_DataType_Name example_CommunicatorName
         {| is_homogeneous := false; local_rank := 0 |} []
         100 4 HOROVOD_FLOAT32 200 [4; 4] [0; 4] HOROVOD_FLOAT32)
      example_context in
  let failed :=
    exec (answering 1)
      (MPIHierarchicalAllgather_DoAllgatherv_MPI
         example_DataType_Name example_CommunicatorName
         {| is_homogeneous := true; local_rank := 1 |} []
         100 4 HOROVOD_FLOAT32 200 [4; 4] [0; 4] HOROVOD_FLOAT32)
      example_context in
  let recorded :=
    exec (answering 0)
      (MPIHierarchicalAllgather_DoAllgatherv_recorded returning
         {| is_homogeneous := false; local_rank := 0 |} []
         100 4 HOROVOD_FLOAT32 200 [4; 4] [0; 4] HOROVOD_FLOAT32) [] in
  count is_Barrier (calls_of skipped) = 1%nat /\
  count is_Barrier (calls_of returned) = 1%nat /\
  count is_Barrier (calls_of failed) = 0%nat /\
  object_of recorded
  = [call_Allgatherv 100 4 HOROVOD_FLOAT32 200 [4; 4] [0; 4] HOROVOD_FLOAT32
       CROSS;
     call_Barrier GLOBAL].
Proof.
  cbv zeta. split; [| split; [| split]].
  - apply (proj1 (hierarchical_barrier example_DataType_Name
                    example_CommunicatorName returning (answering 0)
                    example_context
                    {| is_homogeneous := false; local_rank := 1 |} []
                    100 4 HOROVOD_FLOAT32 200 [4; 4] [0; 4] HOROVOD_FLOAT32)).
    + reflexivity.
    + cbn. lia.
  - apply (proj2 (hierarchical_barrier example_DataType_Name
                    example_CommunicatorName returning (answering 0)
                    example_context
                    {| is_homogeneous := false; local_rank := 0 |} []
                    100 4 HOROVOD_FLOAT32 200 [4; 4] [0; 4] HOROVOD_FLOAT32)
             (or_intror eq_refl)).
    reflexivity.
  - apply (proj2 (hierarchical_barrier example_DataType_Name
                    example_CommunicatorName returning (answering 1)
                    example_context
                    {| is_homogeneous := true; local_rank := 1 |} []
                    100 4 HOROVOD_FLOAT32 200 [4; 4] [0; 4] HOROVOD_FLOAT32)
             (or_introl eq_refl))
      with (e := logic_error
                   "MPI_Allgatherv failed, see MPI output for details.").
    reflexivity.
  - apply (proj2 (hierarchical_barrier example_DataType_Name
                    example_CommunicatorName returning (answering 0)
                    example_context
                    {| is_homogeneous := false; local_rank := 0 |} []
                    100 4 HOROVOD_FLOAT32 200 [4; 4] [0; 4] HOROVOD_FLOAT32)
             (or_intror eq_refl)).
    reflexivity.
Defined.

Lemma Allreduce_in_place_or_separate_witness :
  (exists datatype op c,
     MPI_Allreduce MPI_IN_PLACE 200 8 MPI_FLOAT MPI_SUM (MPI_Comm_handle 10)
     = MPI_Allreduce MPI_IN_PLACE 200 (int_cast 8) datatype op c) /\
  (exists datatype op c,
     MPI_Allreduce (MPI_Buffer 100) 200 8 MPI_FLOAT MPI_SUM
       (MPI_Comm_handle 10)
     = MPI_Allreduce (MPI_Buffer 100) 200 (int_cast 8) datatype op c) /\
  List.length
    (calls_of (exec (answering 0)
                 (MPIContext_Allreduce example_DataType_Name
                    example_CommunicatorName 200 8
                    (example_entry HOROVOD_FLOAT32 100 200) nullptr GLOBAL)
                 example_context)) = 1%nat.
Proof.
  split; [| split].
  - apply (proj1 (Allreduce_in_place_or_separate example_DataType_Name
                    example_CommunicatorName (answering 0) example_context
                    200 8 (example_entry HOROVOD_FLOAT32 100 200) nullptr
                    GLOBAL)).
    + reflexivity.
    + left. reflexivity.
  - apply (proj1 (proj2 (Allreduce_in_place_or_separate example_DataType_Name
                    example_CommunicatorName (answering 0) example_context
                    200 8 (example_entry HOROVOD_FLOAT32 100 200) 100
                    GLOBAL))).
    + unfold nullptr. lia.
    + left. reflexivity.
  - apply (proj2 (proj2 (Allreduce_in_place_or_separate example_DataType_Name
                    example_CommunicatorName (answering 0) example_context
                    200 8 (example_entry HOROVOD_FLOAT32 100 200) nullptr
                    GLOBAL))).
    + reflexivity.
    + reflexivity.
Defined.

Lemma Allreduce_operator_witness :
  (exists send c,
     MPI_Allreduce MPI_IN_PLACE 200 8 (MPI_Datatype_created 1)
       (MPI_Op_created 1) (MPI_Comm_handle 10)
     = MPI_Allreduce send 200 (int_cast 8)
         (mpi_float16_t example_context) (mpi_float16_sum example_context) c)
  /\
  (exists send datatype c,
     MPI_Allreduce MPI_IN_PLACE 200 8 MPI_INT64_T MPI_SUM (MPI_Comm_handle 10)
     = MPI_Allreduce send 200 (int_cast 8) datatype MPI_SUM c) /\
  List.length
    (calls_of (exec (answering 0)
                 (MPIContext_Allreduce example_DataType_Name
                    example_CommunicatorName 200 8
                    (example_entry HOROVOD_FLOAT16 100 200) nullptr GLOBAL)
                 example_context)) = 1%nat.
Proof.
  split; [| split].
  - apply (proj1 (Allreduce_operator example_DataType_Name
                    example_CommunicatorName (answering 0) example_context
                    200 8 (example_entry HOROVOD_FLOAT16 100 200) nullptr
                    GLOBAL)).
    + reflexivity.
    + left. reflexivity.
  - apply (proj1 (proj2 (Allreduce_operator example_DataType_Name
                    example_CommunicatorName (answering 0) example_context
                    200 8 (example_entry HOROVOD_INT64 100 200) nullptr
                    GLOBAL))).
    + discriminate.
    + left. reflexivity.
  - apply (proj1 (proj2 (proj2 (Allreduce_operator example_DataType_Name
                    example_CommunicatorName (answering 0) example_context
                    200 8 (example_entry HOROVOD_FLOAT16 100 200) nullptr
                    GLOBAL)))).
    + reflexivity.
    + reflexivity.
Defined.

Lemma DoMPIAllreduce_send_buffer_witness :
  exists sendbuf : ptr,
    (sendbuf <> nullptr ->
     List.length [example_entry HOROVOD_FLOAT32 100 200] = 1%nat /\
     data (tensor (example_entry HOROVOD_FLOAT32 100 200))
     <> data (output (example_entry HOROVOD_FLOAT32 100 200)) /\
     sendbuf = data (tensor (example_entry HOROVOD_FLOAT32 100 200))) /\
    exists (datatype : MPI_Datatype) (op : MPI_Op),
      calls_of (exec (answering 0)
                  (DoMPIAllreduce example_DataType_Name
                     example_CommunicatorName
                     [example_entry HOROVOD_FLOAT32 100 200] 200 8 32)
                  example_context)
      = [MPI_Allreduce
           (if sendbuf =? nullptr then MPI_IN_PLACE else MPI_Buffer sendbuf)
           200 (int_cast 8) datatype op (mpi_comm example_context)].
Proof.
  destruct (DoMPIAllreduce_send_buffer example_DataType_Name
              example_CommunicatorName (answering 0) example_context
              (example_entry HOROVOD_FLOAT32 100 200) [] 200 8 32)
    as (sendbuf & _ & Hsep & _ & Hcalls).
  exists sendbuf. split; [exact Hsep |].
  apply Hcalls. reflexivity.
Defined.

(** ** Instances of the further properties *)

Lemma only_window_operations_write_witness :
  writes_window (call_member (call_Barrier GLOBAL)) = false /\
  snd (fst (run (answering 1)
              (invoke example_DataType_Name example_CommunicatorName
                 (call_member (call_Barrier GLOBAL)) example_context) []))
  = example_context.
Proof.
  split; [reflexivity |].
  apply (only_window_operations_write example_DataType_Name
           example_CommunicatorName (answering 1)
           (call_member (call_Barrier GLOBAL)) example_context []).
  reflexivity.
Defined.



Lemma Allgatherv_in_place_or_separate_witness :
  listed HOROVOD_FLOAT32 = true /\
  recognized LOCAL = true /\
  List.length
    (calls_of (exec (answering 0)
                 (MPIContext_Allgatherv example_DataType_Name
                    example_CommunicatorName nullptr 4 HOROVOD_FLOAT32 200
                    [4; 4] [0; 4] HOROVOD_FLOAT32 LOCAL) example_context))
  = 1%nat /\
  exists st rt c,
    MPI_Allgatherv MPI_IN_PLACE 4 MPI_FLOAT 200 [4; 4] [0; 4] MPI_FLOAT
      (MPI_Comm_handle 11)
    = MPI_Allgatherv
        (if nullptr =? nullptr then MPI_IN_PLACE else MPI_Buffer nullptr)
        4 st 200 [4; 4] [0; 4] rt c.
Proof.
  split; [reflexivity |]. split; [reflexivity |]. split.
  - apply (proj2 (Allgatherv_in_place_or_separate example_DataType_Name
                    example_CommunicatorName (answering 0) example_context
                    nullptr 4 HOROVOD_FLOAT32 200 [4; 4] [0; 4]
                    HOROVOD_FLOAT32 LOCAL)); reflexivity.
  - apply (proj1 (Allgatherv_in_place_or_separate example_DataType_Name
                    example_CommunicatorName (answering 0) example_context
                    nullptr 4 HOROVOD_FLOAT32 200 [4; 4] [0; 4]
                    HOROVOD_FLOAT32 LOCAL)).
    left. reflexivity.
Defined.

Lemma Broadcast_arguments_witness :
  listed HOROVOD_INT32 = true /\
  recognized GLOBAL = true /\
  exists (count : Z) (datatype : MPI_Datatype) (c : MPI_Comm),
    calls_of (exec (answering 0)
                (MPIContext_Broadcast example_DataType_Name
                   example_CommunicatorName 200 (2 ^ 32 + 3) HOROVOD_INT32 1
                   GLOBAL) example_context)
    = [MPI_Bcast 200 count datatype 1 c] /\
    - 2 ^ 31 <= count < 2 ^ 31.
Proof.
  split; [reflexivity |]. split; [reflexivity |].
  destruct (Broadcast_arguments example_DataType_Name
              example_CommunicatorName (answering 0) example_context
              200 (2 ^ 32 + 3) HOROVOD_INT32 1 GLOBAL eq_refl eq_refl)
    as (count & datatype & c & Hcalls & _ & _ & Hrange & _).
  exists count, datatype, c. split; [exact Hcalls | exact Hrange].
Defined.

Lemma Allreduce_count_witness :
  exists send count datatype op c,
    MPI_Allreduce MPI_IN_PLACE 200 8 MPI_FLOAT MPI_SUM (MPI_Comm_handle 10)
    = MPI_Allreduce send 200 count datatype op c /\
    - 2 ^ 31 <= count < 2 ^ 31 /\
    (count - 8) mod 2 ^ 32 = 0 /\
    (- 2 ^ 31 <= 8 < 2 ^ 31 -> count = 8).
Proof.
  apply (Allreduce_count example_DataType_Name example_CommunicatorName
           (answering 0) example_context 200 8
           (example_entry HOROVOD_FLOAT32 100 200) nullptr GLOBAL).
  left. reflexivity.
Defined.

Lemma shared_buffer_lifecycle_one_window_witness :
  GetMPICommunicator example_CommunicatorName example_context LOCAL
  = Ok (MPI_Comm_handle 11) /\
  exec (answering 0)
    (shared_buffer_lifecycle example_CommunicatorName 1024 4 4096 LOCAL 1
       4104) example_context
  = (Ok tt, set_window example_context (MPI_Win_handle 0),
     [MPI_Win_allocate_shared 1024 4 MPI_INFO_NULL (MPI_Comm_handle 11) 4096;
      MPI_Win_shared_query (MPI_Win_handle 6) 1 4104;
      MPI_Win_fence 0 (MPI_Win_handle 6);
      MPI_Win_free (MPI_Win_handle 6)]).
Proof.
  split; [reflexivity |].
  apply (shared_buffer_lifecycle_one_window example_CommunicatorName
           (answering 0) example_context 1024 4 4096 LOCAL 1 4104
           (MPI_Comm_handle 11)).
  reflexivity.
Defined.

Lemma timeline_end_iff_returned_witness :
  let mc :=
    call_MPIBroadcast [example_entry HOROVOD_INT32 100 100] 100 3
      HOROVOD_INT32 0 in
  let out :=
    exec (answering 1)
      (invoke example_DataType_Name example_CommunicatorName mc)
      example_context in
  timeline_activity mc
  = Some (MPI_BCAST, [example_entry HOROVOD_INT32 100 100]) /\
  calls_of out
  = Timeline_ActivityStartAll [example_entry HOROVOD_INT32 100 100] MPI_BCAST
    :: filter is_MPI (calls_of out)
    ++ match result_of out with
       | Ok _ => [Timeline_ActivityEndAll [example_entry HOROVOD_INT32 100 100]]
       | _ => []
       end.
Proof.
  cbv zeta. split; [reflexivity |].
  apply (timeline_end_iff_returned example_DataType_Name
           example_CommunicatorName (answering 1) example_context
           (call_MPIBroadcast [example_entry HOROVOD_INT32 100 100] 100 3
              HOROVOD_INT32 0)
           MPI_BCAST [example_entry HOROVOD_INT32 100 100]).
  reflexivity.
Defined.

Lemma plain_dispatchers_use_global_witness :
  (exists send st rt,
     MPI_Allgatherv (MPI_Buffer 100) 4 MPI_FLOAT 200 [4; 4] [0; 4] MPI_FLOAT
       (MPI_Comm_handle 10)
     = MPI_Allgatherv send 4 st 200 [4; 4] [0; 4] rt
         (mpi_comm example_context)) /\
  (exists count datatype,
     MPI_Bcast 100 3 MPI_INT32_T 0 (MPI_Comm_handle 10)
     = MPI_Bcast 100 count datatype 0 (mpi_comm example_context)).
Proof.
  split.
  - apply (proj1 (proj1 (plain_dispatchers_use_global example_DataType_Name
                           example_CommunicatorName (answering 0)
                           example_context [])
                    100 4 HOROVOD_FLOAT32 200 [4; 4] [0; 4] HOROVOD_FLOAT32)).
    left. reflexivity.
  - apply (proj1 (proj2 (plain_dispatchers_use_global example_DataType_Name
                           example_CommunicatorName (answering 0)
                           example_context [])
                    100 3 HOROVOD_INT32 0)).
    left. reflexivity.
Defined.

Lemma DoMPIAllreduce_in_place_iff_witness :
  listed (dtype (tensor (example_entry HOROVOD_FLOAT32 0 200))) = true /\
  (exists (send : MPI_Buf) (datatype : MPI_Datatype) (op : MPI_Op),
     calls_of (exec (answering 0)
                 (DoMPIAllreduce example_DataType_Name
                    example_CommunicatorName
                    [example_entry HOROVOD_FLOAT32 0 200] 200 8 32)
                 example_context)
     = [MPI_Allreduce send 200 (int_cast 8) datatype op
          (mpi_comm example_context)] /\
     (send = MPI_IN_PLACE <->
      @nil TensorTableEntry <> [] \/
      data (tensor (example_entry HOROVOD_FLOAT32 0 200))
      = data (output (example_entry HOROVOD_FLOAT32 0 200)) \/
      data (tensor (example_entry HOROVOD_FLOAT32 0 200)) = nullptr) /\
     (send <> MPI_IN_PLACE ->
      send = MPI_Buffer (data (tensor (example_entry HOROVOD_FLOAT32 0 200)))))
  /\
  DoMPIAllreduce example_DataType_Name example_CommunicatorName
    [example_entry HOROVOD_FLOAT32 100 200;
     example_entry HOROVOD_INT32 300 400] 200 8 32
  = DoMPIAllreduce example_DataType_Name example_CommunicatorName
      [example_entry HOROVOD_FLOAT32 100 200;
       example_entry HOROVOD_FLOAT64 500 600;
       example_entry HOROVOD_BOOL 700 800] 200 8 64.
Proof.
  split; [reflexivity |]. split.
  - apply (proj1 (DoMPIAllreduce_in_place_iff example_DataType_Name
                    example_CommunicatorName (answering 0) example_context
                    (example_entry HOROVOD_FLOAT32 0 200) [] 200 8 32)).
    reflexivity.
  - apply (proj2 (DoMPIAllreduce_in_place_iff example_DataType_Name
                    example_CommunicatorName (answering 0) example_context
                    (example_entry HOROVOD_FLOAT32 100 200)
                    [example_entry HOROVOD_INT32 300 400] 200 8 32)
             (example_entry HOROVOD_INT32 300 400) []
             [example_entry HOROVOD_FLOAT64 500 600;
              example_entry HOROVOD_BOOL 700 800] 64).
    + reflexivity.
    + discriminate.
Defined.

Lemma GetMPIDataType_injective_witness :
  mpi_float16_t example_context = MPI_Datatype_created 1 /\
  listed HOROVOD_FLOAT16 = true /\
  GetMPIDataType example_DataType_Name example_context HOROVOD_FLOAT16
  = GetMPIDataType example_DataType_Name example_context HOROVOD_FLOAT16 /\
  HOROVOD_FLOAT16 = HOROVOD_FLOAT16.
Proof.
  split; [reflexivity |]. split; [reflexivity |]. split; [reflexivity |].
  apply (GetMPIDataType_injective example_DataType_Name example_context 1
           HOROVOD_FLOAT16 HOROVOD_FLOAT16); reflexivity.
Defined.

Lemma GetTypeSize_ignores_status_witness :
  listed HOROVOD_NULL = true /\
  exists datatype : MPI_Datatype,
    GetMPIDataType example_DataType_Name example_context HOROVOD_NULL
    = Ok datatype /\
    (HOROVOD_NULL = HOROVOD_NULL -> datatype = MPI_DATATYPE_NULL) /\
    exec (answering 1)
      (MPIContext_GetTypeSize example_DataType_Name HOROVOD_NULL 4096)
      example_context
    = (Ok tt, example_context, [MPI_Type_size datatype 4096]).
Proof.
  split; [reflexivity |].
  apply (GetTypeSize_ignores_status example_DataType_Name (answering 1)
           example_context HOROVOD_NULL 4096).
  reflexivity.
Defined.
